(** * AutoReconnect: a reconnect supervisor (src/auto_link.h)

    A shallow embedding of the C++ class [AutoReconnect] and proofs about
    its polling loop.

    Modelling choices, all read off the source:
    - [unsigned long] is the 32-bit Arduino type: a [Z] in [0, 2^32) whose
      subtraction wraps ([usub]);
    - [int] fields are [Z]; the only arithmetic on them is the increment
      of [_reconnectAttempts], guarded by [_reconnectAttempts <
      _maxReconnectAttempts], so it never leaves the range of [int];
    - the four [std::function] slots are [option]s ([nullptr] is [None])
      of functions over the state of the host application;
    - [millis()] reads the board's clock; time may pass before every read
      ([tick]);
    - the methods run in a state monad over the supervisor and the host,
      which also records every callback invocation in a trace.
    Callbacks act on the host only: they do not call back into the
    supervisor that invokes them. *)

From Stdlib Require Import ZArith Bool List String Lia DecimalString.
Import ListNotations.
Local Open Scope Z_scope.

(** ** Machine integers and strings *)

Definition ULONG_BITS : Z := 32.

(** Conversion to [unsigned long]. *)
Definition ulong (z : Z) : Z := z mod 2 ^ ULONG_BITS.

(** [a - b] on [unsigned long]. *)
Definition usub (a b : Z) : Z := ulong (a - b).

(** Arduino's [String(int)]: the decimal numeral. *)
Definition String_of_int (n : Z) : string := NilZero.string_of_int (Z.to_int n).

(** ** The environment *)

(** The board the code runs on: [clock] is the number of milliseconds
    since boot (unbounded; [millis()] reports it modulo 2^32) and [tick]
    is the passage of time up to the next read of the clock. *)
Class Board (Host : Type) : Type := {
  clock : Host -> Z;
  tick : Host -> Host
}.

(** What the supervisor does to its environment: one event per callback
    invocation, with the value returned or the message passed. *)
Inductive Event : Type :=
| StatusCall (connected : bool)
| ReconnectCall (initiated : bool)
| LogCall (msg : string)
| ErrorCall (msg : string).

(** Result of a computation: a value, the state after it and the callback
    invocations it made, oldest first. *)
Record Out (S A : Type) : Type := mkOut {
  val : A;
  st : S;
  evs : list Event
}.
Arguments mkOut {S A} _ _ _.
Arguments val {S A} _.
Arguments st {S A} _.
Arguments evs {S A} _.

Section Supervisor.

Context {Host : Type} {board : Board Host}.

(** ** Callback types *)

Definition ReconnectCallback : Type := Host -> bool * Host.
Definition StatusCallback : Type := Host -> bool * Host.
Definition LogCallback : Type := string -> Host -> Host.
Definition ErrorCallback : Type := string -> Host -> Host.

(** ** The object *)

Record AutoReconnect : Type := mkAutoReconnect {
  _shouldReconnect : bool;
  _wasConnected : bool;
  _lastConnectAttempt : Z;
  _connectionStartTime : Z;
  _reconnectAttempts : Z;
  _maxReconnectAttempts : Z;
  _connectionTimeoutMs : Z;
  _reconnectDelayMs : Z;
  _reconnectCallback : option ReconnectCallback;
  _statusCallback : option StatusCallback;
  _logCallback : option LogCallback;
  _errorCallback : option ErrorCallback;
  _connectionName : string
}.

(** Member initialisers and the constructor. *)
Definition AutoReconnect_new (connectionName : string) : AutoReconnect :=
  {| _shouldReconnect := true;
     _wasConnected := false;
     _lastConnectAttempt := 0;
     _connectionStartTime := 0;
     _reconnectAttempts := 0;
     _maxReconnectAttempts := 5;
     _connectionTimeoutMs := 15000;
     _reconnectDelayMs := 30000;
     _reconnectCallback := None;
     _statusCallback := None;
     _logCallback := None;
     _errorCallback := None;
     _connectionName := connectionName |}.

Definition default_connectionName : string := "Connection".

(** Assignment to one member. *)
Definition with_shouldReconnect (v : bool) (a : AutoReconnect) : AutoReconnect :=
  mkAutoReconnect v (_wasConnected a) (_lastConnectAttempt a)
    (_connectionStartTime a) (_reconnectAttempts a) (_maxReconnectAttempts a)
    (_connectionTimeoutMs a) (_reconnectDelayMs a) (_reconnectCallback a)
    (_statusCallback a) (_logCallback a) (_errorCallback a) (_connectionName a).

Definition with_wasConnected (v : bool) (a : AutoReconnect) : AutoReconnect :=
  mkAutoReconnect (_shouldReconnect a) v (_lastConnectAttempt a)
    (_connectionStartTime a) (_reconnectAttempts a) (_maxReconnectAttempts a)
    (_connectionTimeoutMs a) (_reconnectDelayMs a) (_reconnectCallback a)
    (_statusCallback a) (_logCallback a) (_errorCallback a) (_connectionName a).

Definition with_lastConnectAttempt (v : Z) (a : AutoReconnect) : AutoReconnect :=
  mkAutoReconnect (_shouldReconnect a) (_wasConnected a) v
    (_connectionStartTime a) (_reconnectAttempts a) (_maxReconnectAttempts a)
    (_connectionTimeoutMs a) (_reconnectDelayMs a) (_reconnectCallback a)
    (_statusCallback a) (_logCallback a) (_errorCallback a) (_connectionName a).

Definition with_connectionStartTime (v : Z) (a : AutoReconnect) : AutoReconnect :=
  mkAutoReconnect (_shouldReconnect a) (_wasConnected a) (_lastConnectAttempt a)
    v (_reconnectAttempts a) (_maxReconnectAttempts a)
    (_connectionTimeoutMs a) (_reconnectDelayMs a) (_reconnectCallback a)
    (_statusCallback a) (_logCallback a) (_errorCallback a) (_connectionName a).

Definition with_reconnectAttempts (v : Z) (a : AutoReconnect) : AutoReconnect :=
  mkAutoReconnect (_shouldReconnect a) (_wasConnected a) (_lastConnectAttempt a)
    (_connectionStartTime a) v (_maxReconnectAttempts a)
    (_connectionTimeoutMs a) (_reconnectDelayMs a) (_reconnectCallback a)
    (_statusCallback a) (_logCallback a) (_errorCallback a) (_connectionName a).

Definition with_maxReconnectAttempts (v : Z) (a : AutoReconnect) : AutoReconnect :=
  mkAutoReconnect (_shouldReconnect a) (_wasConnected a) (_lastConnectAttempt a)
    (_connectionStartTime a) (_reconnectAttempts a) v
    (_connectionTimeoutMs a) (_reconnectDelayMs a) (_reconnectCallback a)
    (_statusCallback a) (_logCallback a) (_errorCallback a) (_connectionName a).

Definition with_connectionTimeoutMs (v : Z) (a : AutoReconnect) : AutoReconnect :=
  mkAutoReconnect (_shouldReconnect a) (_wasConnected a) (_lastConnectAttempt a)
    (_connectionStartTime a) (_reconnectAttempts a) (_maxReconnectAttempts a)
    v (_reconnectDelayMs a) (_reconnectCallback a)
    (_statusCallback a) (_logCallback a) (_errorCallback a) (_connectionName a).

Definition with_reconnectDelayMs (v : Z) (a : AutoReconnect) : AutoReconnect :=
  mkAutoReconnect (_shouldReconnect a) (_wasConnected a) (_lastConnectAttempt a)
    (_connectionStartTime a) (_reconnectAttempts a) (_maxReconnectAttempts a)
    (_connectionTimeoutMs a) v (_reconnectCallback a)
    (_statusCallback a) (_logCallback a) (_errorCallback a) (_connectionName a).

Definition with_reconnectCallback (v : option ReconnectCallback) (a : AutoReconnect)
  : AutoReconnect :=
  mkAutoReconnect (_shouldReconnect a) (_wasConnected a) (_lastConnectAttempt a)
    (_connectionStartTime a) (_reconnectAttempts a) (_maxReconnectAttempts a)
    (_connectionTimeoutMs a) (_reconnectDelayMs a) v
    (_statusCallback a) (_logCallback a) (_errorCallback a) (_connectionName a).

Definition with_statusCallback (v : option StatusCallback) (a : AutoReconnect)
  : AutoReconnect :=
  mkAutoReconnect (_shouldReconnect a) (_wasConnected a) (_lastConnectAttempt a)
    (_connectionStartTime a) (_reconnectAttempts a) (_maxReconnectAttempts a)
    (_connectionTimeoutMs a) (_reconnectDelayMs a) (_reconnectCallback a)
    v (_logCallback a) (_errorCallback a) (_connectionName a).

Definition with_logCallback (v : option LogCallback) (a : AutoReconnect)
  : AutoReconnect :=
  mkAutoReconnect (_shouldReconnect a) (_wasConnected a) (_lastConnectAttempt a)
    (_connectionStartTime a) (_reconnectAttempts a) (_maxReconnectAttempts a)
    (_connectionTimeoutMs a) (_reconnectDelayMs a) (_reconnectCallback a)
    (_statusCallback a) v (_errorCallback a) (_connectionName a).

Definition with_errorCallback (v : option ErrorCallback) (a : AutoReconnect)
  : AutoReconnect :=
  mkAutoReconnect (_shouldReconnect a) (_wasConnected a) (_lastConnectAttempt a)
    (_connectionStartTime a) (_reconnectAttempts a) (_maxReconnectAttempts a)
    (_connectionTimeoutMs a) (_reconnectDelayMs a) (_reconnectCallback a)
    (_statusCallback a) (_logCallback a) v (_connectionName a).

Definition with_connectionName (v : string) (a : AutoReconnect) : AutoReconnect :=
  mkAutoReconnect (_shouldReconnect a) (_wasConnected a) (_lastConnectAttempt a)
    (_connectionStartTime a) (_reconnectAttempts a) (_maxReconnectAttempts a)
    (_connectionTimeoutMs a) (_reconnectDelayMs a) (_reconnectCallback a)
    (_statusCallback a) (_logCallback a) (_errorCallback a) v.

(** ** The monad of methods *)

(** The supervisor together with the application that hosts it. *)
Record Sys : Type := mkSys {
  sup : AutoReconnect;
  host : Host
}.

Definition M (A : Type) : Type := Sys -> Out Sys A.

Definition ret {A : Type} (a : A) : M A :=
  fun s => mkOut a s [].

Definition bind {A B : Type} (m : M A) (k : A -> M B) : M B :=
  fun s =>
    match m s with
    | mkOut a s1 e1 =>
      match k a s1 with
      | mkOut b s2 e2 => mkOut b s2 (e1 ++ e2)
      end
    end.

(** [*this]. *)
Definition self : M AutoReconnect :=
  fun s => mkOut (sup s) s [].

(** An assignment to a member. *)
Definition store (f : AutoReconnect -> AutoReconnect) : M unit :=
  fun s => mkOut tt (mkSys (f (sup s)) (host s)) [].

(** [millis()]: time passes, then the clock is read as an [unsigned long]. *)
Definition millis : M Z :=
  fun s =>
    let h := tick (host s) in
    mkOut (ulong (clock h)) (mkSys (sup s) h) [].

(** Invocation of a callback. *)
Definition call_status (cb : StatusCallback) : M bool :=
  fun s =>
    let r := cb (host s) in
    mkOut (fst r) (mkSys (sup s) (snd r)) [StatusCall (fst r)].

Definition call_reconnect (cb : ReconnectCallback) : M bool :=
  fun s =>
    let r := cb (host s) in
    mkOut (fst r) (mkSys (sup s) (snd r)) [ReconnectCall (fst r)].

Definition call_log (cb : LogCallback) (msg : string) : M unit :=
  fun s => mkOut tt (mkSys (sup s) (cb msg (host s))) [LogCall msg].

Definition call_error (cb : ErrorCallback) (msg : string) : M unit :=
  fun s => mkOut tt (mkSys (sup s) (cb msg (host s))) [ErrorCall msg].

(** [if (c) { body }]. *)
Definition when (c : bool) (body : M unit) : M unit :=
  if c then body else ret tt.

(** [if (slot) { body(slot) }] for a callback slot. *)
Definition if_set {C : Type} (slot : option C) (body : C -> M unit) : M unit :=
  match slot with
  | Some cb => body cb
  | None => ret tt
  end.

End Supervisor.

Arguments AutoReconnect Host : clear implicits.
Arguments Sys Host : clear implicits.
Arguments M Host A : clear implicits.
Arguments ReconnectCallback Host : clear implicits.
Arguments StatusCallback Host : clear implicits.
Arguments LogCallback Host : clear implicits.
Arguments ErrorCallback Host : clear implicits.

Declare Scope sup_scope.
Delimit Scope sup_scope with sup.
Notation "x <- m ;; k" := (bind m (fun x => k))
  (at level 61, m at next level, right associativity) : sup_scope.
Notation "m ;; k" := (bind m (fun _ => k))
  (at level 61, right associativity) : sup_scope.

Section Methods.

Context {Host : Type} {board : Board Host}.

Local Open Scope sup_scope.

(** ** Configuration methods *)

Definition setMaxAttempts (maxAttempts : Z) : M Host unit :=
  store (with_maxReconnectAttempts maxAttempts).

Definition setConnectionTimeout (timeoutMs : Z) : M Host unit :=
  store (with_connectionTimeoutMs (ulong timeoutMs)).

Definition setReconnectDelay (delayMs : Z) : M Host unit :=
  store (with_reconnectDelayMs (ulong delayMs)).

Definition setConnectionName (name : string) : M Host unit :=
  store (with_connectionName name).

(** ** Callback setters *)

Definition setReconnectCallback (callback : option (ReconnectCallback Host))
  : M Host unit :=
  store (with_reconnectCallback callback).

Definition setStatusCallback (callback : option (StatusCallback Host))
  : M Host unit :=
  store (with_statusCallback callback).

Definition setLogCallback (callback : option (LogCallback Host)) : M Host unit :=
  store (with_logCallback callback).

Definition setErrorCallback (callback : option (ErrorCallback Host))
  : M Host unit :=
  store (with_errorCallback callback).

(** ** Control methods *)

Definition enable : M Host unit :=
  store (with_shouldReconnect true);;
  store (with_reconnectAttempts 0);;
  this <- self;;
  if_set (_logCallback this) (fun cb =>
    call_log cb (_connectionName this ++ " auto-reconnect enabled")%string).

Definition disable : M Host unit :=
  store (with_shouldReconnect false);;
  this <- self;;
  if_set (_logCallback this) (fun cb =>
    call_log cb (_connectionName this ++ " auto-reconnect disabled")%string).

Definition reset : M Host unit :=
  store (with_reconnectAttempts 0);;
  store (with_lastConnectAttempt 0);;
  store (with_connectionStartTime 0).

(** Called when a connection attempt starts. *)
Definition onConnectionAttemptStarted : M Host unit :=
  now <- millis;;
  store (with_connectionStartTime now);;
  now <- millis;;
  store (with_lastConnectAttempt now).

(** Called when connection status changes. *)
Definition onConnectionStatusChanged (connected : bool) : M Host unit :=
  this <- self;;
  (if connected && negb (_wasConnected this) then
     (* Just connected *)
     store (with_reconnectAttempts 0);;
     store (with_connectionStartTime 0);;
     if_set (_logCallback this) (fun cb =>
       call_log cb (_connectionName this ++ " connected successfully")%string)
   else if negb connected && _wasConnected this then
     (* Just disconnected *)
     when (_shouldReconnect this)
       (now <- millis;;
        store (with_lastConnectAttempt now);;
        if_set (_logCallback this) (fun cb =>
          call_log cb
            (_connectionName this ++ " disconnected, will attempt reconnect")%string))
   else ret tt);;
  store (with_wasConnected connected).

(** Main loop - call this regularly.  The connection-timeout check is
    commented out in the source and is not part of the method. *)
Definition loop : M Host unit :=
  this <- self;;
  match _statusCallback this, _reconnectCallback this with
  | Some statusCallback, Some reconnectCallback =>
    currentlyConnected <- call_status statusCallback;;
    (* Update connection status *)
    this <- self;;
    when (negb (Bool.eqb currentlyConnected (_wasConnected this)))
      (onConnectionStatusChanged currentlyConnected);;
    (* Auto-reconnect logic; [&&] reads the clock only when the first
       three tests pass *)
    this <- self;;
    due <- (if negb currentlyConnected && _shouldReconnect this
               && (_reconnectAttempts this <? _maxReconnectAttempts this)
            then now <- millis;;
                 ret (_reconnectDelayMs this <? usub now (_lastConnectAttempt this))
            else ret false);;
    when due
      (store (fun a => with_reconnectAttempts (_reconnectAttempts a + 1) a);;
       now <- millis;;
       store (with_lastConnectAttempt now);;
       now <- millis;;
       store (with_connectionStartTime now);;
       this <- self;;
       if_set (_logCallback this) (fun cb =>
         call_log cb
           (_connectionName this ++ " reconnecting ("
            ++ String_of_int (_reconnectAttempts this) ++ "/"
            ++ String_of_int (_maxReconnectAttempts this) ++ ")")%string);;
       (* Attempt reconnection *)
       initiated <- call_reconnect reconnectCallback;;
       when (negb initiated)
         (if_set (_errorCallback this) (fun cb =>
            call_error cb
              (_connectionName this ++ " reconnect attempt failed to start")%string)));;
    (* Stop trying after max attempts *)
    this <- self;;
    when ((_maxReconnectAttempts this <=? _reconnectAttempts this)
          && negb currentlyConnected && _shouldReconnect this)
      (store (with_shouldReconnect false);;
       if_set (_errorCallback this) (fun cb =>
         call_error cb
           (_connectionName this
            ++ " auto-reconnect disabled after max attempts")%string))
  | _, _ => ret tt (* Callbacks not set *)
  end.

(** ** Getters *)

Definition isReconnectEnabled (s : Sys Host) : bool := _shouldReconnect (sup s).
Definition getReconnectAttempts (s : Sys Host) : Z := _reconnectAttempts (sup s).
Definition getMaxReconnectAttempts (s : Sys Host) : Z :=
  _maxReconnectAttempts (sup s).
Definition getLastAttemptTime (s : Sys Host) : Z := _lastConnectAttempt (sup s).
Definition wasConnected (s : Sys Host) : bool := _wasConnected (sup s).

End Methods.

(** ** Sequences of calls *)

(** A call of a public method by the host application, or anything else
    the host does between two calls ([HostStep]: time passing, the link
    going up or down). *)
Inductive Op (Host : Type) : Type :=
| SetMaxAttempts (maxAttempts : Z)
| SetConnectionTimeout (timeoutMs : Z)
| SetReconnectDelay (delayMs : Z)
| SetConnectionName (name : string)
| SetReconnectCallback (callback : option (ReconnectCallback Host))
| SetStatusCallback (callback : option (StatusCallback Host))
| SetLogCallback (callback : option (LogCallback Host))
| SetErrorCallback (callback : option (ErrorCallback Host))
| Enable
| Disable
| Reset
| OnConnectionAttemptStarted
| OnConnectionStatusChanged (connected : bool)
| Loop
| HostStep (f : Host -> Host).

Arguments SetMaxAttempts {Host} _.
Arguments SetConnectionTimeout {Host} _.
Arguments SetReconnectDelay {Host} _.
Arguments SetConnectionName {Host} _.
Arguments SetReconnectCallback {Host} _.
Arguments SetStatusCallback {Host} _.
Arguments SetLogCallback {Host} _.
Arguments SetErrorCallback {Host} _.
Arguments Enable {Host}.
Arguments Disable {Host}.
Arguments Reset {Host}.
Arguments OnConnectionAttemptStarted {Host}.
Arguments OnConnectionStatusChanged {Host} _.
Arguments Loop {Host}.
Arguments HostStep {Host} _.

(** ** Reading a trace *)

Definition is_reconnect_call (e : Event) : bool :=
  match e with ReconnectCall _ => true | _ => false end.

(** Number of invocations of the reconnect callback. *)
Definition reconnect_calls (es : list Event) : nat :=
  List.length (filter is_reconnect_call es).

Definition is_error_call (msg : string) (e : Event) : bool :=
  match e with ErrorCall m => String.eqb m msg | _ => false end.

(** Number of invocations of the error callback with message [msg]. *)
Definition error_calls (msg : string) (es : list Event) : nat :=
  List.length (filter (is_error_call msg) es).

(** The two error messages of [loop]. *)
Definition failed_to_start (name : string) : string :=
  (name ++ " reconnect attempt failed to start")%string.

Definition disabled_after_max (name : string) : string :=
  (name ++ " auto-reconnect disabled after max attempts")%string.

Section Runs.

Context {Host : Type} {board : Board Host}.

Local Open Scope sup_scope.

Definition exec (op : Op Host) : M Host unit :=
  match op with
  | SetMaxAttempts m => setMaxAttempts m
  | SetConnectionTimeout t => setConnectionTimeout t
  | SetReconnectDelay d => setReconnectDelay d
  | SetConnectionName n => setConnectionName n
  | SetReconnectCallback cb => setReconnectCallback cb
  | SetStatusCallback cb => setStatusCallback cb
  | SetLogCallback cb => setLogCallback cb
  | SetErrorCallback cb => setErrorCallback cb
  | Enable => enable
  | Disable => disable
  | Reset => reset
  | OnConnectionAttemptStarted => onConnectionAttemptStarted
  | OnConnectionStatusChanged c => onConnectionStatusChanged c
  | Loop => loop
  | HostStep f => fun s => mkOut tt (mkSys (sup s) (f (host s))) []
  end.

Fixpoint run (ops : list (Op Host)) : M Host unit :=
  match ops with
  | [] => ret tt
  | op :: ops' => exec op;; run ops'
  end.

(** A run that only polls: calls of [loop] with the host doing what it
    does in between. *)
Definition polling (op : Op Host) : Prop :=
  match op with
  | Loop | HostStep _ => True
  | _ => False
  end.

(** ** The blocks of [loop]

    The body of [loop] after its guard is four blocks in sequence; they
    are named here so that the state between them can be spoken of
    ([loop_blocks] below shows that [loop] is their composition). *)

(** Lines 112-117: query the status and update the connection status. *)
Definition update_status (statusCallback : StatusCallback Host) : M Host bool :=
  currentlyConnected <- call_status statusCallback;;
  this <- self;;
  when (negb (Bool.eqb currentlyConnected (_wasConnected this)))
    (onConnectionStatusChanged currentlyConnected);;
  ret currentlyConnected.

(** Lines 132-134: the condition of the auto-reconnect logic. *)
Definition reconnect_due (currentlyConnected : bool) : M Host bool :=
  this <- self;;
  if negb currentlyConnected && _shouldReconnect this
     && (_reconnectAttempts this <? _maxReconnectAttempts this)
  then now <- millis;;
       ret (_reconnectDelayMs this <? usub now (_lastConnectAttempt this))
  else ret false.

(** Lines 136-151: the reconnect attempt. *)
Definition attempt_reconnect (reconnectCallback : ReconnectCallback Host)
  : M Host unit :=
  store (fun a => with_reconnectAttempts (_reconnectAttempts a + 1) a);;
  now <- millis;;
  store (with_lastConnectAttempt now);;
  now <- millis;;
  store (with_connectionStartTime now);;
  this <- self;;
  if_set (_logCallback this) (fun cb =>
    call_log cb
      (_connectionName this ++ " reconnecting ("
       ++ String_of_int (_reconnectAttempts this) ++ "/"
       ++ String_of_int (_maxReconnectAttempts this) ++ ")")%string);;
  initiated <- call_reconnect reconnectCallback;;
  when (negb initiated)
    (if_set (_errorCallback this) (fun cb =>
       call_error cb (failed_to_start (_connectionName this)))).

(** Lines 155-161: stop trying after max attempts. *)
Definition stop_after_max (currentlyConnected : bool) : M Host unit :=
  this <- self;;
  when ((_maxReconnectAttempts this <=? _reconnectAttempts this)
        && negb currentlyConnected && _shouldReconnect this)
    (store (with_shouldReconnect false);;
     if_set (_errorCallback this) (fun cb =>
       call_error cb (disabled_after_max (_connectionName this)))).

(** The state in which [loop] takes the reconnect decision: after the
    status has been queried and recorded. *)
Definition at_decision (s : Sys Host) : Out (Sys Host) bool :=
  match _statusCallback (sup s) with
  | Some statusCallback => update_status statusCallback s
  | None => mkOut false s []
  end.

(** The clock when [loop] tests the delay (line 134), when it assigns
    [_lastConnectAttempt] (line 137) and when it assigns
    [_connectionStartTime] (line 138), in milliseconds since boot. *)
Definition decision_clock (s : Sys Host) : Z :=
  clock (tick (host (st (at_decision s)))).

Definition attempt_clock (s : Sys Host) : Z :=
  clock (tick (tick (host (st (at_decision s))))).

Definition start_clock (s : Sys Host) : Z :=
  clock (tick (tick (tick (host (st (at_decision s)))))).

(** Whether this call of [loop] invokes the reconnect callback. *)
Definition fires (s : Sys Host) : bool :=
  negb (Nat.eqb (reconnect_calls (evs (loop s))) 0).

(** The clock of every reconnect attempt of a run, oldest first. *)
Fixpoint trigger_clocks (ops : list (Op Host)) (s : Sys Host) : list Z :=
  match ops with
  | [] => []
  | op :: ops' =>
    match op with
    | Loop => if fires s then [attempt_clock s] else []
    | _ => []
    end ++ trigger_clocks ops' (st (exec op s))
  end.

(** The connection status a call observes: the argument of an explicit
    [onConnectionStatusChanged], or what the status callback returns to
    a [loop] that gets as far as asking. *)
Definition observes (op : Op Host) (s : Sys Host) : option bool :=
  match op with
  | OnConnectionStatusChanged c => Some c
  | Loop =>
    match _statusCallback (sup s), _reconnectCallback (sup s) with
    | Some statusCallback, Some _ => Some (fst (statusCallback (host s)))
    | _, _ => None
    end
  | _ => None
  end.

(** The argument of the invocation of [onConnectionStatusChanged] a call
    makes, if it makes one: [loop] invokes it only on a change. *)
Definition notifies (op : Op Host) (s : Sys Host) : option bool :=
  match op with
  | OnConnectionStatusChanged c => Some c
  | Loop =>
    match _statusCallback (sup s), _reconnectCallback (sup s) with
    | Some statusCallback, Some _ =>
      let c := fst (statusCallback (host s)) in
      if Bool.eqb c (_wasConnected (sup s)) then None else Some c
    | _, _ => None
    end
  | _ => None
  end.

(** The last status seen by a run, [seen] if there is none. *)
Fixpoint last_seen (see : Op Host -> Sys Host -> option bool)
  (ops : list (Op Host)) (s : Sys Host) (seen : bool) : bool :=
  match ops with
  | [] => seen
  | op :: ops' =>
    last_seen see ops' (st (exec op s))
      (match see op s with Some c => c | None => seen end)
  end.

(** Every [setMaxAttempts] of the run asks for at least the attempts
    already made. *)
Fixpoint budget_kept (ops : list (Op Host)) (s : Sys Host) : Prop :=
  match ops with
  | [] => True
  | op :: ops' =>
    match op with
    | SetMaxAttempts m => _reconnectAttempts (sup s) <= m
    | _ => True
    end /\ budget_kept ops' (st (exec op s))
  end.

End Runs.

(** ** Vocabulary of the statements *)

(** The members that only setters assign. *)
Definition config {Host : Type} (a : AutoReconnect Host) :=
  (_maxReconnectAttempts a, _connectionTimeoutMs a, _reconnectDelayMs a,
   _reconnectCallback a, _statusCallback a, _logCallback a, _errorCallback a,
   _connectionName a).

(** Whether a callback slot holds a callback. *)
Definition is_set {C : Type} (slot : option C) : bool :=
  match slot with Some _ => true | None => false end.

(** The callback invocations that follow the first invocation of the
    reconnect callback. *)
Fixpoint after_reconnect (es : list Event) : list Event :=
  match es with
  | [] => []
  | e :: es' => if is_reconnect_call e then es' else after_reconnect es'
  end.

(** The clock does not go backwards while [f] runs. *)
Definition advances {Host : Type} {board : Board Host} (f : Host -> Host) : Prop :=
  forall h, clock h <= clock (f h).

(** No registered callback sets the clock back. *)
Definition callbacks_advance {Host : Type} {board : Board Host}
  (a : AutoReconnect Host) : Prop :=
  (forall cb, _statusCallback a = Some cb -> advances (fun h => snd (cb h))) /\
  (forall cb, _reconnectCallback a = Some cb -> advances (fun h => snd (cb h))) /\
  (forall cb, _logCallback a = Some cb -> forall msg, advances (cb msg)) /\
  (forall cb, _errorCallback a = Some cb -> forall msg, advances (cb msg)).

(** Nothing the host does between two calls sets the clock back. *)
Definition steps_advance {Host : Type} {board : Board Host}
  (ops : list (Op Host)) : Prop :=
  Forall (fun op => match op with HostStep f => advances f | _ => True end) ops.

(** In the run [ops1 ++ Loop :: ops2] from [s], the call of [loop] that
    follows [ops1] makes the last reconnect attempt and, in the same
    call and after the attempt, disables the supervisor and reports it. *)
Definition exhausts_at {Host : Type} {board : Board Host}
  (ops1 ops2 : list (Op Host)) (s : Sys Host) : Prop :=
  let s1 := st (run ops1 s) in
  fires s1 = true /\
  reconnect_calls (evs (run ops2 (st (loop s1)))) = 0%nat /\
  isReconnectEnabled s1 = true /\
  isReconnectEnabled (st (loop s1)) = false /\
  error_calls (disabled_after_max (_connectionName (sup s)))
    (after_reconnect (evs (loop s1)))
  = (if is_set (_errorCallback (sup s)) then 1 else 0)%nat.

(** ** A host for tests

    The host is the mock clock of a test bench: its state is the time in
    milliseconds, which only the bench moves. *)
Module TestHost.

Definition bench : Board Z := {| clock := fun h => h; tick := fun h => h |}.

#[local] Existing Instance bench.

Definition never_connected : StatusCallback Z := fun h => (false, h).
Definition always_initiated : ReconnectCallback Z := fun h => (true, h).
Definition never_initiated : ReconnectCallback Z := fun h => (false, h).
Definition sink : string -> Z -> Z := fun _ h => h.

(** The bench sets the clock, or lets time pass. *)
Definition at_time (t : Z) : Op Z := HostStep (fun _ => t).
Definition wait (d : Z) : Op Z := HostStep (fun h => h + d).

(** The supervisor of the scenarios: [maxAttempts=2],
    [reconnectDelayMs=100], a status callback that always returns false
    and a trigger callback that always returns true. *)
Definition scenario : list (Op Z) :=
  [ SetMaxAttempts 2; SetReconnectDelay 100;
    SetStatusCallback (Some never_connected);
    SetReconnectCallback (Some always_initiated);
    SetErrorCallback (Some sink) ].

Definition fresh : Sys Z := mkSys (AutoReconnect_new default_connectionName) 0.

Definition configured : Sys Z := st (run scenario fresh).

(** The first poll of the scenario, made at time [t]. *)
Definition first_poll (t : Z) : Out (Sys Z) unit :=
  run [at_time t; Loop] configured.

(** Polls at 150, 300 and 450 ms. *)
Definition three_polls : list (Op Z) :=
  [wait 150; Loop; wait 150; Loop; wait 150; Loop].

(** The polls at 150 and 300 ms make the two attempts of the budget; the
    poll at 450 ms is the next one. *)
Definition to_last_trigger : list (Op Z) := [wait 150; Loop; wait 150; Loop].
Definition exhausted : Sys Z := st (run to_last_trigger configured).
Definition next_poll : Out (Sys Z) unit := run [wait 150; Loop] exhausted.

(** Two attempts made out of the default budget of 5, then the budget
    lowered to 1 and one more poll. *)
Definition lowered : Sys Z :=
  st (run [ SetReconnectDelay 100;
            SetStatusCallback (Some never_connected);
            SetReconnectCallback (Some always_initiated);
            wait 150; Loop; wait 150; Loop;
            SetMaxAttempts 1; wait 150; Loop ] fresh).

End TestHost.

(** ** Vocabulary of the further statements *)

(** The three log messages of the handlers and of [loop]. *)
Definition connected_successfully (name : string) : string :=
  (name ++ " connected successfully")%string.

Definition will_attempt_reconnect (name : string) : string :=
  (name ++ " disconnected, will attempt reconnect")%string.

Definition reconnecting (name : string) (attempt maxAttempts : Z) : string :=
  (name ++ " reconnecting (" ++ String_of_int attempt ++ "/"
   ++ String_of_int maxAttempts ++ ")")%string.

(** The two log messages of the control methods. *)
Definition reconnect_enabled (name : string) : string :=
  (name ++ " auto-reconnect enabled")%string.

Definition reconnect_disabled (name : string) : string :=
  (name ++ " auto-reconnect disabled")%string.

(** The invocation [e] of a callback, made only if its slot is set. *)
Definition if_registered {C : Type} (slot : option C) (e : Event) : list Event :=
  if is_set slot then [e] else [].

Definition is_error_event (e : Event) : bool :=
  match e with ErrorCall _ => true | _ => false end.

(** Number of invocations of the error callback, whatever the message. *)
Definition all_error_calls (es : list Event) : nat :=
  List.length (filter is_error_event es).

(** Every [setMaxAttempts] of the run asks for at most [bound]. *)
Definition budgets_within {Host : Type} (bound : Z) (ops : list (Op Host)) : Prop :=
  Forall (fun op => match op with SetMaxAttempts m => m <= bound | _ => True end)
    ops.

(** Any call but [enable]. *)
Definition not_enable {Host : Type} (op : Op Host) : Prop :=
  match op with
  | Enable => False
  | _ => True
  end.

(** Two systems that differ at most in [_connectionTimeoutMs]. *)
Definition same_but_timeout {Host : Type} (s1 s2 : Sys Host) : Prop :=
  with_connectionTimeoutMs 0 (sup s1) = with_connectionTimeoutMs 0 (sup s2) /\
  host s1 = host s2.

(** The clock stands still while [f] runs. *)
Definition instant {Host : Type} {board : Board Host} (f : Host -> Host) : Prop :=
  forall h, clock (f h) = clock h.

(** Every registered callback returns at once. *)
Definition callbacks_instant {Host : Type} {board : Board Host}
  (a : AutoReconnect Host) : Prop :=
  (forall cb, _statusCallback a = Some cb -> instant (fun h => snd (cb h))) /\
  (forall cb, _reconnectCallback a = Some cb -> instant (fun h => snd (cb h))) /\
  (forall cb, _logCallback a = Some cb -> forall msg, instant (cb msg)) /\
  (forall cb, _errorCallback a = Some cb -> forall msg, instant (cb msg)).

(** [k] polls, the host doing [f] before each. *)
Fixpoint poll_every {Host : Type} (f : Host -> Host) (k : nat) : list (Op Host) :=
  match k with
  | O => []
  | S k' => HostStep f :: Loop :: poll_every f k'
  end.

(** ** More of the test bench *)
Module MoreTests.

Import TestHost.

#[local] Existing Instance bench.

Definition always_connected : StatusCallback Z := fun h => (true, h).

(** The scenario's supervisor with the link up. *)
Definition linked : Sys Z :=
  st (run [SetStatusCallback (Some always_connected)] configured).

(** The scenario's supervisor told that the link is up, which then
    drops. *)
Definition dropping : Sys Z :=
  st (run [OnConnectionStatusChanged true] configured).

(** The scenario's supervisor at 150 ms, about to make attempt #1, and
    after it. *)
Definition due : Sys Z := st (run [wait 150] configured).
Definition attempted : Sys Z := st (run [wait 150; Loop] configured).

(** The exhausted supervisor 150 ms after its last attempt. *)
Definition rested : Sys Z := st (run [wait 150] exhausted).

(** Time passing by 150 ms. *)
Definition pass : Z -> Z := fun h => h + 150.

End MoreTests.

(** * Properties *)

(** ** Strings and machine arithmetic *)

Lemma eqb_append_head (a b c : string) :
  String.eqb (a ++ b) (a ++ c) = String.eqb b c.
Proof.
  induction a as [|x a IH]; cbn; [reflexivity|].
  rewrite Ascii.eqb_refl. exact IH.
Qed.

Lemma ulong_range (z : Z) : 0 <= ulong z < 2 ^ ULONG_BITS.
Proof. unfold ulong. apply Z.mod_pos_bound. reflexivity. Qed.

Lemma ulong_small (z : Z) : 0 <= z < 2 ^ ULONG_BITS -> ulong z = z.
Proof. intros H. unfold ulong. apply Z.mod_small. exact H. Qed.

(** The wrapped difference of two readings of a clock that does not go
    backwards is at most the time that passed between them. *)
Lemma usub_le_elapsed (earlier later : Z) :
  earlier <= later -> usub (ulong later) (ulong earlier) <= later - earlier.
Proof.
  intros H. unfold usub, ulong.
  rewrite <- Zminus_mod. apply Z.mod_le; [lia | reflexivity].
Qed.

Section SinglePoll.

Context {Host : Type} {board : Board Host}.

Local Open Scope sup_scope.

#[local] Arguments String.append : simpl never.
#[local] Arguments String_of_int : simpl never.
#[local] Arguments ulong : simpl never.
#[local] Arguments usub : simpl never.

Ltac unfold_monad_in E :=
  unfold bind, self, when, if_set, ret, store, call_status, call_log,
    call_error, call_reconnect, millis in E.

Ltac to_Z :=
  repeat match goal with
  | H : (_ <? _) = true |- _ => apply Z.ltb_lt in H
  | H : (_ <? _) = false |- _ => apply Z.ltb_ge in H
  | H : (_ <=? _) = true |- _ => apply Z.leb_le in H
  | H : (_ <=? _) = false |- _ => apply Z.leb_gt in H
  end.

(** One branching point of the computation in [E]. *)
Ltac break_in E :=
  match type of E with
  | context [?a <? ?b] => destruct (a <? b) eqn:?
  | context [?a <=? ?b] => destruct (a <=? b) eqn:?
  | context [match ?o with Some _ => _ | None => _ end] => destruct o eqn:?
  | context [if negb ?b then _ else _] => destruct b eqn:?
  | context [if ?b then _ else _] => destruct b eqn:?
  end;
  cbn in E.

(** Comparisons in the goal that the context decides. *)
Ltac decide_cmp :=
  repeat match goal with
  | |- context [?a <=? ?b] => destruct (Z.leb_spec a b); try lia
  | |- context [?a <? ?b] => destruct (Z.ltb_spec a b); try lia
  end;
  cbn.

(** The events a hypothesis of membership in a concrete trace allows. *)
Ltac in_cases H :=
  cbn in H; repeat destruct H as [H|H];
  try discriminate H; try contradiction H; try (injection H as H).

(** Every path through a call of [loop] and through its first block: the
    results of [loop s] and [at_decision s] are computed once, case by
    case, and put back in the goal. *)
Ltac sys_cases s with_loop :=
  let h := fresh "h" in
  let should := fresh "should" in let was := fresh "was" in
  let cc := fresh "cc" in let h1 := fresh "h" in
  let out := fresh "out" in let Eout := fresh "Eout" in
  let dec := fresh "dec" in let Edec := fresh "Edec" in
  unfold fires, decision_clock, attempt_clock, start_clock in *;
  remember (at_decision s) as dec eqn:Edec;
  lazymatch with_loop with
  | true => remember (loop s) as out eqn:Eout
  | false => remember (mkOut tt s (@nil Event)) as out eqn:Eout
  end;
  destruct s as [[should was ? ? ? ? ? ? ? ? ? ? ?] h];
  cbn [sup host _statusCallback _reconnectCallback _logCallback
       _errorCallback] in *;
  repeat match goal with H : ?x = Some _ |- _ => is_var x; subst x end;
  unfold at_decision, update_status, onConnectionStatusChanged in Edec;
  unfold loop, onConnectionStatusChanged in Eout;
  unfold_monad_in Edec; unfold_monad_in Eout;
  cbn [sup host _statusCallback _reconnectCallback] in Edec, Eout;
  match type of Edec with
  | context [?f h] =>
    lazymatch type of f with
    | StatusCallback _ => destruct (f h) as [cc h1] in Edec, Eout |- *
    end
  end;
  destruct cc, was, should;
  cbn in Edec; repeat break_in Edec;
  cbn in Eout; repeat break_in Eout;
  subst out dec;
  unfold isReconnectEnabled, getReconnectAttempts, getMaxReconnectAttempts,
    getLastAttemptTime, wasConnected, reconnect_calls, error_calls,
    failed_to_start, disabled_after_max, config;
  cbn; rewrite ?eqb_append_head; cbn; to_Z.

Ltac loop_cases s := sys_cases s true.
Ltac decision_cases s := sys_cases s false.

Ltac break_if :=
  match goal with
  | |- context [?a <? ?b] => destruct (a <? b) eqn:?
  | |- context [?a <=? ?b] => destruct (a <=? b) eqn:?
  | |- context [match ?o with Some _ => _ | None => _ end] => destruct o eqn:?
  | |- context [if negb ?b then _ else _] => destruct b eqn:?
  | |- context [if ?b then _ else _] => destruct b eqn:?
  end.

Lemma loop_blocks (s : Sys Host) sc rc :
  _statusCallback (sup s) = Some sc ->
  _reconnectCallback (sup s) = Some rc ->
  loop s =
  (currentlyConnected <- update_status sc;;
   due <- reconnect_due currentlyConnected;;
   when due (attempt_reconnect rc);;
   stop_after_max currentlyConnected) s.
Proof.
  intros Hsc Hrc.
  destruct s as [[should was ? ? ? ? ? ? ? ? ? ? ?] h]; cbn in Hsc, Hrc; subst.
  unfold loop, update_status, reconnect_due, attempt_reconnect, stop_after_max,
    onConnectionStatusChanged, failed_to_start, disabled_after_max.
  unfold bind, self, when, if_set, ret, store, call_status, call_log,
    call_error, call_reconnect, millis.
  cbn [sup host _statusCallback _reconnectCallback].
  destruct (sc h) as [cc h1]; destruct cc, was, should; cbn;
    repeat (break_if; cbn); reflexivity.
Qed.

(** Without its two callbacks [loop] does nothing. *)
Lemma loop_unset (s : Sys Host) :
  _statusCallback (sup s) = None \/ _reconnectCallback (sup s) = None ->
  loop s = mkOut tt s [].
Proof.
  intros H. unfold loop, bind, self, ret.
  destruct (_statusCallback (sup s)) as [sc|], (_reconnectCallback (sup s)) as [rc|];
    try reflexivity.
  destruct H; discriminate.
Qed.

(** What one call of [loop] does to the supervisor, in terms of what the
    status callback returns and of whether the reconnect callback is
    invoked. *)
Lemma poll_summary (s : Sys Host) sc rc :
  _statusCallback (sup s) = Some sc ->
  _reconnectCallback (sup s) = Some rc ->
  let cc := fst (sc (host s)) in
  let s' := st (loop s) in
  wasConnected s' = cc /\
  getReconnectAttempts s' =
    (if cc then if wasConnected s then getReconnectAttempts s else 0
     else getReconnectAttempts s + (if fires s then 1 else 0)) /\
  reconnect_calls (evs (loop s)) = (if fires s then 1 else 0)%nat /\
  isReconnectEnabled s' =
    isReconnectEnabled s
    && negb (negb cc
             && (getMaxReconnectAttempts s <=? getReconnectAttempts s')) /\
  error_calls (disabled_after_max (_connectionName (sup s))) (evs (loop s)) =
    (if isReconnectEnabled s && negb cc
        && (getMaxReconnectAttempts s <=? getReconnectAttempts s')
        && is_set (_errorCallback (sup s))
     then 1%nat else 0%nat) /\
  (fires s = true ->
   cc = false /\ isReconnectEnabled s = true /\
   getReconnectAttempts s < getMaxReconnectAttempts s /\
   _reconnectDelayMs (sup s) <
     usub (ulong (decision_clock s)) (getLastAttemptTime (st (at_decision s))) /\
   getLastAttemptTime s' = ulong (attempt_clock s)) /\
  (fires s = false ->
   getLastAttemptTime s' = getLastAttemptTime (st (at_decision s))) /\
  (fires s = true ->
   error_calls (disabled_after_max (_connectionName (sup s)))
     (after_reconnect (evs (loop s))) =
   error_calls (disabled_after_max (_connectionName (sup s))) (evs (loop s))) /\
  In (StatusCall cc) (evs (loop s)).
Proof.
  intros Hsc Hrc. unfold is_set, after_reconnect.
  loop_cases s. all: decide_cmp.
  all: solve [repeat split; try (intros; discriminate);
              try reflexivity; try lia; auto].
Qed.

(** [loop] never touches the configuration. *)
Lemma loop_keeps_config (s : Sys Host) sc rc :
  _statusCallback (sup s) = Some sc ->
  _reconnectCallback (sup s) = Some rc ->
  config (sup (st (loop s))) = config (sup s).
Proof.
  intros Hsc Hrc. loop_cases s; reflexivity.
Qed.

(** The state at the reconnect decision, from the state at the call:
    the configuration, enabled and (with the link down) the attempt count
    are those at the call; [lastAttemptTime] is that at the call unless
    this call sees an enabled supervisor lose the link, which stamps it
    with the clock. *)
Lemma at_decision_frame (s : Sys Host) sc :
  _statusCallback (sup s) = Some sc ->
  let d := at_decision s in
  val d = fst (sc (host s)) /\
  config (sup (st d)) = config (sup s) /\
  isReconnectEnabled (st d) = isReconnectEnabled s /\
  wasConnected (st d) = val d /\
  (val d = false -> getReconnectAttempts (st d) = getReconnectAttempts s) /\
  (wasConnected s = false -> val d = false ->
   st d = mkSys (sup s) (snd (sc (host s)))) /\
  getLastAttemptTime (st d)
  = (if negb (val d) && wasConnected s && isReconnectEnabled s
     then ulong (clock (tick (snd (sc (host s)))))
     else getLastAttemptTime s).
Proof.
  intros Hsc.
  decision_cases s.
  all: repeat split; intros; try discriminate; reflexivity.
Qed.

(** The reconnect callback is invoked when the link is down,
    reconnection is enabled, budget is left and the delay has passed, all
    of it read at the reconnect decision. *)
Lemma fires_when_due (s : Sys Host) sc rc :
  _statusCallback (sup s) = Some sc ->
  _reconnectCallback (sup s) = Some rc ->
  let d := st (at_decision s) in
  fst (sc (host s)) = false /\
  isReconnectEnabled d = true /\
  getReconnectAttempts d < getMaxReconnectAttempts d /\
  _reconnectDelayMs (sup d) <
    usub (ulong (decision_clock s)) (getLastAttemptTime d) ->
  exists ok, In (ReconnectCall ok) (evs (loop s)).
Proof.
  intros Hsc Hrc.
  loop_cases s.
  all: intros (H1 & H2 & H3 & H4).
  all: first [ discriminate | lia | solve [eexists; cbn; eauto 10] ].
Qed.

(** C8: if the status callback or the reconnect-trigger callback is
    unset, a call of [loop] returns at once: the supervisor and the host
    are as they were, and no callback is invoked, log and error
    callbacks included. *)
Theorem loop_without_callbacks (s : Sys Host) :
  _statusCallback (sup s) = None \/ _reconnectCallback (sup s) = None ->
  loop s = mkOut tt s [].
Proof.
  intros H. unfold loop, bind, self, ret.
  destruct (_statusCallback (sup s)) as [sc|], (_reconnectCallback (sup s)) as [rc|];
    try reflexivity.
  destruct H; discriminate.
Qed.

(** C1: in a call of [loop] with both callbacks set, the
    reconnect-trigger callback is invoked if and only if, at the
    reconnect decision of that call (the status just queried and
    recorded), the status callback returned not-connected, enabled is
    true, [attemptCount < maxAttempts], and the elapsed time since
    [lastAttemptTime], as the wrapping [unsigned long] difference the
    code computes, strictly exceeds [reconnectDelayMs]. *)
Theorem loop_triggers_iff (s : Sys Host) sc rc :
  _statusCallback (sup s) = Some sc ->
  _reconnectCallback (sup s) = Some rc ->
  let d := st (at_decision s) in
  (exists ok, In (ReconnectCall ok) (evs (loop s))) <->
  (fst (sc (host s)) = false /\
   isReconnectEnabled d = true /\
   getReconnectAttempts d < getMaxReconnectAttempts d /\
   _reconnectDelayMs (sup d) <
     usub (ulong (decision_clock s)) (getLastAttemptTime d)).
Proof.
  intros Hsc Hrc.
  loop_cases s.
  all: split; [intros [ok Hin] | intros (H1 & H2 & H3 & H4)].
  all: first [ solve [exfalso; cbn in *; intuition (try discriminate; try lia)]
             | solve [eexists; cbn; eauto 10]
             | solve [repeat split; (reflexivity || lia)] ].
Qed.


(** C2: the exhaustion check runs after the trigger logic in the same
    call: when a call of [loop] invokes the reconnect callback and the
    attempt count thereby reaches [maxAttempts], the link was observed
    down and enabled was true at the call, and that same call sets
    enabled to false and reports the exhaustion error, after the
    reconnect callback (once if an error callback is registered). *)
Theorem exhaustion_in_same_call (s : Sys Host) sc rc ok :
  _statusCallback (sup s) = Some sc ->
  _reconnectCallback (sup s) = Some rc ->
  In (ReconnectCall ok) (evs (loop s)) ->
  getReconnectAttempts (st (loop s)) = getMaxReconnectAttempts (st (loop s)) ->
  fst (sc (host s)) = false /\
  isReconnectEnabled s = true /\
  getReconnectAttempts s + 1 = getMaxReconnectAttempts s /\
  isReconnectEnabled (st (loop s)) = false /\
  error_calls (disabled_after_max (_connectionName (sup s)))
    (after_reconnect (evs (loop s)))
  = (if is_set (_errorCallback (sup s)) then 1 else 0)%nat.
Proof.
  intros Hsc Hrc. unfold after_reconnect, is_set.
  loop_cases s; intros Hin Hfull; in_cases Hin.
  all: solve [repeat split; (reflexivity || lia)].
Qed.

(** C5: whenever a call of [loop] invokes the reconnect callback, the
    attempt count is one more than before the call, and
    [lastAttemptTime] and [connectionStartTime] are the clock as read at
    their assignments, whether the callback returns true or false; if it
    returns false, the error callback, when registered, is invoked
    exactly once with the "reconnect attempt failed to start" message
    (and not at all if it returns true). *)
Theorem attempt_bookkeeping (s : Sys Host) sc rc ok :
  _statusCallback (sup s) = Some sc ->
  _reconnectCallback (sup s) = Some rc ->
  In (ReconnectCall ok) (evs (loop s)) ->
  getReconnectAttempts (st (loop s)) = getReconnectAttempts s + 1 /\
  getLastAttemptTime (st (loop s)) = ulong (attempt_clock s) /\
  _connectionStartTime (sup (st (loop s))) = ulong (start_clock s) /\
  error_calls (failed_to_start (_connectionName (sup s))) (evs (loop s))
  = (if ok then 0 else if is_set (_errorCallback (sup s)) then 1 else 0)%nat.
Proof.
  intros Hsc Hrc. unfold is_set.
  loop_cases s; intros Hin; in_cases Hin; subst ok.
  all: solve [repeat split; (reflexivity || lia)].
Qed.


(** ** The clock during a call *)

Ltac use_advances :=
  repeat match goal with
  | H : forall cb, Some ?l = Some cb -> _ |- _ => specialize (H l eq_refl)
  | H : forall cb, _ = Some cb -> _ |- _ => clear H
  end;
  unfold advances in *.

Ltac clock_chain :=
  repeat first
    [ lia
    | eapply Z.le_trans;
      [| match goal with H : forall _, _ |- _ => apply H end] ].

Lemma loop_clock (s : Sys Host) sc rc (c : Z) :
  _statusCallback (sup s) = Some sc ->
  _reconnectCallback (sup s) = Some rc ->
  advances tick -> callbacks_advance (sup s) ->
  (c <= clock (host s) -> c <= clock (host (st (loop s)))) /\
  clock (host s) <= decision_clock s /\
  decision_clock s <= attempt_clock s /\
  (fires s = true -> attempt_clock s <= clock (host (st (loop s)))).
Proof.
  intros Hsc Hrc Htick (Hs & Hr & Hl & He).
  specialize (Hs _ Hsc). specialize (Hr _ Hrc).
  generalize (Hs (host s)). revert Hl He.
  loop_cases s.
  all: intros Hl He Hs0; use_advances.
  all: repeat split; try (intros; discriminate); intros; clock_chain.
Qed.

(** On a clock that does not move between two reads, the two timestamps
    of an attempt are the time of the reconnect decision. *)
Lemma attempt_times_agree (s : Sys Host) :
  (forall h, clock (tick h) = clock h) ->
  attempt_clock s = clock (host (st (at_decision s))) /\
  start_clock s = clock (host (st (at_decision s))).
Proof.
  intros Hsteady. unfold attempt_clock, start_clock.
  rewrite !Hsteady. split; reflexivity.
Qed.

End SinglePoll.

(** ** Runs *)

Section RunFacts.

Context {Host : Type} {board : Board Host}.

Lemma run_cons_st (op : Op Host) ops s :
  st (run (op :: ops) s) = st (run ops (st (exec op s))).
Proof.
  cbn [run]. unfold bind.
  destruct (exec op s) as [[] s1 e1]; cbn [st evs val].
  destruct (run ops s1) as [[] s2 e2]. reflexivity.
Qed.

Lemma run_cons_evs (op : Op Host) ops s :
  evs (run (op :: ops) s) = evs (exec op s) ++ evs (run ops (st (exec op s))).
Proof.
  cbn [run]. unfold bind.
  destruct (exec op s) as [[] s1 e1]; cbn [st evs val].
  destruct (run ops s1) as [[] s2 e2]. reflexivity.
Qed.

Lemma run_app_st (ops1 ops2 : list (Op Host)) s :
  st (run (ops1 ++ ops2) s) = st (run ops2 (st (run ops1 s))).
Proof.
  revert s. induction ops1 as [|op ops1 IH]; intros s; [reflexivity|].
  rewrite <- app_comm_cons, !run_cons_st. apply IH.
Qed.

Lemma reconnect_calls_app (es1 es2 : list Event) :
  reconnect_calls (es1 ++ es2) = (reconnect_calls es1 + reconnect_calls es2)%nat.
Proof. unfold reconnect_calls. rewrite filter_app, length_app. reflexivity. Qed.

Lemma error_calls_app (msg : string) (es1 es2 : list Event) :
  error_calls msg (es1 ++ es2) = (error_calls msg es1 + error_calls msg es2)%nat.
Proof. unfold error_calls. rewrite filter_app, length_app. reflexivity. Qed.

(** The members of [config], one by one. *)
Lemma config_members (a b : AutoReconnect Host) :
  config a = config b ->
  _maxReconnectAttempts a = _maxReconnectAttempts b /\
  _reconnectDelayMs a = _reconnectDelayMs b /\
  _reconnectCallback a = _reconnectCallback b /\
  _statusCallback a = _statusCallback b /\
  _logCallback a = _logCallback b /\
  _errorCallback a = _errorCallback b /\
  _connectionName a = _connectionName b.
Proof. unfold config. intros H. injection H as -> _ -> -> -> -> -> ->. auto 10. Qed.

Lemma config_callbacks_advance (a b : AutoReconnect Host) :
  config a = config b -> callbacks_advance a -> callbacks_advance b.
Proof.
  intros H. apply config_members in H.
  destruct H as (_ & _ & Hr & Hs & Hl & He & _).
  unfold callbacks_advance. rewrite Hr, Hs, Hl, He. auto.
Qed.

(** A polling step keeps the configuration. *)
Lemma loop_config (s : Sys Host) : config (sup (st (loop s))) = config (sup s).
Proof.
  destruct (_statusCallback (sup s)) as [sc|] eqn:Hsc;
    [destruct (_reconnectCallback (sup s)) as [rc|] eqn:Hrc|].
  - eapply loop_keeps_config; eassumption.
  - rewrite loop_unset; auto.
  - rewrite loop_unset; auto.
Qed.

Lemma polling_config (op : Op Host) s :
  polling op -> config (sup (st (exec op s))) = config (sup s).
Proof.
  destruct op; cbn [polling]; try contradiction; intros _.
  - apply loop_config.
  - reflexivity.
Qed.

End RunFacts.

Section Exhaustion.

Context {Host : Type} {board : Board Host}.

(** A polling step of a disabled supervisor neither attempts nor reports. *)
Lemma disabled_step_quiet (op : Op Host) s :
  polling op -> isReconnectEnabled s = false ->
  reconnect_calls (evs (exec op s)) = 0%nat /\
  error_calls (disabled_after_max (_connectionName (sup s))) (evs (exec op s))
  = 0%nat /\
  isReconnectEnabled (st (exec op s)) = false.
Proof.
  intros Hop Hoff. destruct op; cbn [polling] in Hop; try contradiction;
    cbn [exec]; [|cbn; auto].
  destruct (_statusCallback (sup s)) as [sc|] eqn:Hsc;
    [destruct (_reconnectCallback (sup s)) as [rc|] eqn:Hrc|];
    try (rewrite loop_unset by auto; cbn; auto).
  destruct (poll_summary s sc rc Hsc Hrc)
    as (_ & _ & Hcalls & Hen & Herr & Hf & _).
  destruct (fires s).
  - destruct Hf as (_ & Hon & _); [reflexivity|]. congruence.
  - rewrite Hcalls, Hen, Herr, Hoff. cbn. auto.
Qed.

Lemma disabled_run_quiet (ops : list (Op Host)) s :
  Forall polling ops -> isReconnectEnabled s = false ->
  reconnect_calls (evs (run ops s)) = 0%nat /\
  error_calls (disabled_after_max (_connectionName (sup s))) (evs (run ops s))
  = 0%nat /\
  isReconnectEnabled (st (run ops s)) = false.
Proof.
  intros Hpoll. revert s.
  induction Hpoll as [|op ops Hop Hops IH]; intros s Hoff; [cbn; auto|].
  destruct (disabled_step_quiet op s Hop Hoff) as (Hc & He & Hoff').
  destruct (IH _ Hoff') as (Hc' & He' & Hoff'').
  destruct (config_members _ _ (polling_config op s Hop))
    as (_ & _ & _ & _ & _ & _ & Hname).
  rewrite Hname in He'.
  rewrite run_cons_st, run_cons_evs, reconnect_calls_app, error_calls_app.
  rewrite Hc, Hc', He, He'. auto.
Qed.


(** A polling step of an enabled supervisor with budget left, while the
    link is down: no attempt, an attempt that leaves budget, or the
    attempt that takes the last slot. *)
Lemma budget_step (op : Op Host) s :
  polling op -> isReconnectEnabled s = true ->
  getReconnectAttempts s < getMaxReconnectAttempts s ->
  ~ In (StatusCall true) (evs (exec op s)) ->
  let s' := st (exec op s) in
  let e := evs (exec op s) in
  let report := disabled_after_max (_connectionName (sup s)) in
  (reconnect_calls e = 0%nat /\ getReconnectAttempts s' = getReconnectAttempts s /\
   isReconnectEnabled s' = true /\ error_calls report e = 0%nat) \/
  (reconnect_calls e = 1%nat /\
   getReconnectAttempts s' = getReconnectAttempts s + 1 /\
   getReconnectAttempts s + 1 < getMaxReconnectAttempts s /\
   isReconnectEnabled s' = true /\ error_calls report e = 0%nat) \/
  (reconnect_calls e = 1%nat /\
   getReconnectAttempts s + 1 = getMaxReconnectAttempts s /\
   isReconnectEnabled s' = false /\
   error_calls report e = (if is_set (_errorCallback (sup s)) then 1 else 0)%nat /\
   op = Loop /\ fires s = true /\
   error_calls report (after_reconnect e) = error_calls report e).
Proof.
  intros Hop Hon Hlt Hdown. cbv zeta.
  destruct op; cbn [polling] in Hop; try contradiction; cbn [exec] in *;
    [|left; cbn; auto].
  destruct (_statusCallback (sup s)) as [sc|] eqn:Hsc;
    [destruct (_reconnectCallback (sup s)) as [rc|] eqn:Hrc|];
    try (left; rewrite loop_unset by auto; cbn; auto).
  destruct (poll_summary s sc rc Hsc Hrc)
    as (_ & Hatt & Hcalls & Hen & Herr & Hf & _ & Hafter & Hin).
  destruct (fst (sc (host s))); [contradiction|].
  rewrite Hon in *. cbn [negb andb] in *. cbv zeta in *.
  rewrite Hatt in Hen, Herr.
  rewrite Hcalls, Hatt, Hen, Herr.
  destruct (fires s).
  - specialize (Hafter eq_refl). rewrite Hafter, Herr.
    destruct (Z.leb_spec (getMaxReconnectAttempts s) (getReconnectAttempts s + 1)).
    + right; right. cbn. repeat split; auto; lia.
    + right; left. cbn. repeat split; auto; lia.
  - rewrite Z.add_0_r.
    destruct (Z.leb_spec (getMaxReconnectAttempts s) (getReconnectAttempts s));
      [lia|].
    left. cbn. auto.
Qed.

Lemma exhausts_at_cons (op : Op Host) ops1 ops2 s :
  polling op ->
  exhausts_at ops1 ops2 (st (exec op s)) -> exhausts_at (op :: ops1) ops2 s.
Proof.
  intros Hop. unfold exhausts_at. rewrite run_cons_st.
  destruct (config_members _ _ (polling_config op s Hop))
    as (_ & _ & _ & _ & _ & -> & ->).
  auto.
Qed.

(** A polling run of an enabled supervisor with budget left, while the
    link is down: either budget is left at the end, or one of the calls
    took the last slot and disabled the supervisor. *)
Lemma budget_run (ops : list (Op Host)) s :
  Forall polling ops -> isReconnectEnabled s = true ->
  getReconnectAttempts s < getMaxReconnectAttempts s ->
  ~ In (StatusCall true) (evs (run ops s)) ->
  let n := Z.of_nat (reconnect_calls (evs (run ops s))) in
  let reports :=
    error_calls (disabled_after_max (_connectionName (sup s))) (evs (run ops s)) in
  (isReconnectEnabled (st (run ops s)) = true /\
   getReconnectAttempts s + n < getMaxReconnectAttempts s /\
   reports = 0%nat) \/
  (getReconnectAttempts s + n = getMaxReconnectAttempts s /\
   reports = (if is_set (_errorCallback (sup s)) then 1 else 0)%nat /\
   isReconnectEnabled (st (run ops s)) = false /\
   exists ops1 ops2, ops = ops1 ++ Loop :: ops2 /\ exhausts_at ops1 ops2 s).
Proof.
  intros Hpoll. revert s.
  induction Hpoll as [|op ops Hop Hops IH]; intros s Hon Hlt Hdown; cbv zeta.
  { left. cbn. repeat split; auto; lia. }
  rewrite run_cons_evs in Hdown. rewrite in_app_iff in Hdown.
  assert (Hdown1 : ~ In (StatusCall true) (evs (exec op s))) by tauto.
  assert (Hdown2 : ~ In (StatusCall true) (evs (run ops (st (exec op s)))))
    by tauto.
  destruct (config_members _ _ (polling_config op s Hop))
    as (Hmax & _ & _ & _ & _ & Hecb & Hname).
  rewrite run_cons_st, run_cons_evs, reconnect_calls_app, error_calls_app.
  rewrite Nat2Z.inj_add.
  assert (Hmax' : getMaxReconnectAttempts (st (exec op s))
                  = getMaxReconnectAttempts s) by exact Hmax.
  destruct (budget_step op s Hop Hon Hlt Hdown1)
    as [(Hc & Ha & Hon' & He) | [(Hc & Ha & Hlt' & Hon' & He)
        | (Hc & Hfull & Hoff & He & -> & Hf & Hafter)]].
  - (* no attempt *)
    assert (Hlt' : getReconnectAttempts (st (exec op s))
                   < getMaxReconnectAttempts (st (exec op s)))
      by (rewrite Hmax', Ha; exact Hlt).
    specialize (IH (st (exec op s)) Hon' Hlt' Hdown2). cbv zeta in IH.
    rewrite Hmax', Hname, Hecb, Ha in IH.
    rewrite Hc, He. cbn [Z.of_nat Nat.add Z.add].
    destruct IH as [IH | (H1 & H2 & H3 & ops1 & ops2 & -> & Hex)]; [left; exact IH|].
    right. repeat split; auto.
    exists (op :: ops1), ops2. split; [reflexivity|].
    apply exhausts_at_cons; assumption.
  - (* an attempt that leaves budget *)
    assert (Hlt'' : getReconnectAttempts (st (exec op s))
                    < getMaxReconnectAttempts (st (exec op s)))
      by (rewrite Hmax', Ha; exact Hlt').
    specialize (IH (st (exec op s)) Hon' Hlt'' Hdown2). cbv zeta in IH.
    rewrite Hmax', Hname, Hecb, Ha in IH.
    rewrite Hc, He. cbn [Nat.add].
    change (Z.of_nat 1) with 1.
    destruct IH as [(H1 & H2 & H3) | (H1 & H2 & H3 & ops1 & ops2 & -> & Hex)].
    + left. repeat split; auto. lia.
    + right. repeat split; auto; [lia|].
      exists (op :: ops1), ops2. split; [reflexivity|].
      apply exhausts_at_cons; assumption.
  - (* the attempt that takes the last slot *)
    cbn [exec] in *.
    destruct (disabled_run_quiet ops _ Hops Hoff) as (Hc' & He' & Hoff').
    rewrite Hname in He'.
    rewrite Hc, Hc', He, He'. rewrite Nat.add_0_r.
    change (Z.of_nat 1 + Z.of_nat 0) with 1.
    right. repeat split; auto.
    exists [], ops. split; [reflexivity|].
    unfold exhausts_at. cbn [run ret st]. rewrite Hafter, He. auto.
Qed.

End Exhaustion.

Section Spacing.

Context {Host : Type} {board : Board Host}.

(** One call of [loop] while the link is down and was down, [c] being
    the clock of the last attempt. *)
Lemma spacing_step (s : Sys Host) sc rc (c : Z) :
  _statusCallback (sup s) = Some sc ->
  _reconnectCallback (sup s) = Some rc ->
  advances tick -> callbacks_advance (sup s) ->
  wasConnected s = false -> fst (sc (host s)) = false ->
  getLastAttemptTime s = ulong c -> c <= clock (host s) ->
  wasConnected (st (loop s)) = false /\
  c <= clock (host (st (loop s))) /\
  if fires s
  then _reconnectDelayMs (sup s) < attempt_clock s - c /\
       c <= attempt_clock s /\
       getLastAttemptTime (st (loop s)) = ulong (attempt_clock s) /\
       attempt_clock s <= clock (host (st (loop s)))
  else getLastAttemptTime (st (loop s)) = ulong c.
Proof.
  intros Hsc Hrc Htick Hadv Hwas Hdown Hlast Hc.
  destruct (poll_summary s sc rc Hsc Hrc)
    as (Hwas' & _ & _ & _ & _ & Hf & Hidle & _ & _).
  destruct (at_decision_frame s sc Hsc) as (Hval & _ & _ & _ & _ & Hsame & _).
  rewrite Hdown in Hval. specialize (Hsame Hwas Hval).
  destruct (loop_clock s sc rc c Hsc Hrc Htick Hadv) as (Hpast & Hd & Ha & Hnow).
  rewrite Hsame in Hf, Hidle. unfold getLastAttemptTime in Hf, Hidle. cbn [sup] in *.
  fold (getLastAttemptTime s) in Hf, Hidle. rewrite Hlast in Hf, Hidle.
  rewrite Hwas', Hdown. split; [reflexivity|]. split; [auto|].
  destruct (fires s).
  - destruct Hf as (_ & _ & _ & Hdue & Hrec); [reflexivity|].
    pose proof (usub_le_elapsed c (decision_clock s)).
    repeat split; auto; lia.
  - auto.
Qed.

(** After an attempt at clock [c], every later attempt of a polling run
    comes more than the delay after [c], and after one another. *)
Lemma spaced_after (ops : list (Op Host)) s sc rc (c : Z) :
  Forall polling ops -> steps_advance ops ->
  advances tick -> callbacks_advance (sup s) ->
  _statusCallback (sup s) = Some sc ->
  _reconnectCallback (sup s) = Some rc ->
  ~ In (StatusCall true) (evs (run ops s)) ->
  wasConnected s = false ->
  getLastAttemptTime s = ulong c -> c <= clock (host s) ->
  Forall (fun c' => _reconnectDelayMs (sup s) < c' - c) (trigger_clocks ops s) /\
  ForallOrdPairs (fun c1 c2 => _reconnectDelayMs (sup s) < c2 - c1)
    (trigger_clocks ops s).
Proof.
  intros Hpoll. revert s c.
  induction Hpoll as [|op ops Hop Hops IH];
    intros s c Hsteps Htick Hadv Hsc Hrc Hdown Hwas Hlast Hc.
  { cbn. split; constructor. }
  inversion Hsteps as [|? ? Hstep Hsteps']; subst.
  rewrite run_cons_evs, in_app_iff in Hdown.
  pose proof (polling_config op s Hop) as Hcfg.
  pose proof (config_callbacks_advance _ _ (eq_sym Hcfg) Hadv) as Hadv'.
  destruct (config_members _ _ Hcfg) as (_ & Hdelay & Hrc' & Hsc' & _ & _ & _).
  rewrite Hsc in Hsc'. rewrite Hrc in Hrc'.
  assert (Hdown' : ~ In (StatusCall true) (evs (run ops (st (exec op s)))))
    by tauto.
  cbn [trigger_clocks].
  destruct op; cbn [polling] in Hop; try contradiction; cbn [exec] in *.
  - (* a call of [loop] *)
    assert (Hcc : fst (sc (host s)) = false).
    { destruct (poll_summary s sc rc Hsc Hrc) as (_ & _ & _ & _ & _ & _ & _ & _ & Hin).
      destruct (fst (sc (host s))); [tauto|reflexivity]. }
    destruct (spacing_step s sc rc c Hsc Hrc Htick Hadv Hwas Hcc Hlast Hc)
      as (Hwas' & Hc' & Hstep').
    destruct (fires s).
    + destruct Hstep' as (Hgap & Hle & Hlast' & Hnow).
      destruct (IH (st (loop s)) (attempt_clock s) Hsteps' Htick Hadv' Hsc' Hrc'
                   Hdown' Hwas' Hlast' Hnow) as (Hall & Hpairs).
      rewrite Hdelay in Hall, Hpairs. cbn [app]. split.
      * constructor; [exact Hgap|].
        eapply Forall_impl; [|exact Hall]. cbn. intros; lia.
      * constructor; assumption.
    + destruct (IH (st (loop s)) c Hsteps' Htick Hadv' Hsc' Hrc'
                   Hdown' Hwas' Hstep' Hc') as (Hall & Hpairs).
      rewrite Hdelay in Hall, Hpairs. cbn [app]. auto.
  - (* the host does something *)
    cbn [app].
    destruct (IH (st (exec (HostStep f) s)) c Hsteps' Htick Hadv' Hsc' Hrc'
                 Hdown' Hwas Hlast) as (Hall & Hpairs).
    { cbn. eapply Z.le_trans; [exact Hc | apply Hstep]. }
    auto.
Qed.

(** The same from any state: the attempts of a polling run come more
    than the delay after one another. *)
Lemma spaced (ops : list (Op Host)) s sc rc :
  Forall polling ops -> steps_advance ops ->
  advances tick -> callbacks_advance (sup s) ->
  _statusCallback (sup s) = Some sc ->
  _reconnectCallback (sup s) = Some rc ->
  ~ In (StatusCall true) (evs (run ops s)) ->
  ForallOrdPairs (fun c1 c2 => _reconnectDelayMs (sup s) < c2 - c1)
    (trigger_clocks ops s).
Proof.
  intros Hpoll. revert s.
  induction Hpoll as [|op ops Hop Hops IH];
    intros s Hsteps Htick Hadv Hsc Hrc Hdown.
  { constructor. }
  inversion Hsteps as [|? ? Hstep Hsteps']; subst.
  rewrite run_cons_evs, in_app_iff in Hdown.
  pose proof (polling_config op s Hop) as Hcfg.
  pose proof (config_callbacks_advance _ _ (eq_sym Hcfg) Hadv) as Hadv'.
  destruct (config_members _ _ Hcfg) as (_ & Hdelay & Hrc' & Hsc' & _ & _ & _).
  rewrite Hsc in Hsc'. rewrite Hrc in Hrc'.
  assert (Hdown' : ~ In (StatusCall true) (evs (run ops (st (exec op s)))))
    by tauto.
  specialize (IH (st (exec op s)) Hsteps' Htick Hadv' Hsc' Hrc' Hdown').
  rewrite Hdelay in IH.
  cbn [trigger_clocks].
  destruct op; cbn [polling] in Hop; try contradiction; cbn [exec app] in *;
    [|exact IH].
  destruct (fires s) eqn:Hf; [|exact IH].
  cbn [app]. constructor; [|exact IH].
  destruct (poll_summary s sc rc Hsc Hrc)
    as (Hwas' & _ & _ & _ & _ & Hfire & _ & _ & Hin).
  destruct (Hfire Hf) as (Hcc & _ & _ & _ & Hlast').
  destruct (loop_clock s sc rc 0 Hsc Hrc Htick Hadv) as (_ & _ & _ & Hnow).
  rewrite Hcc in Hwas'.
  destruct (spaced_after ops (st (loop s)) sc rc (attempt_clock s) Hops Hsteps'
              Htick Hadv' Hsc' Hrc' Hdown' Hwas' Hlast' (Hnow Hf)) as (Hall & _).
  rewrite Hdelay in Hall. exact Hall.
Qed.

(** Along a polling run with the link down, the attempt count grows by
    one with every invocation of the reconnect callback, and
    [trigger_clocks] has one clock for each. *)
Lemma attempts_counted (ops : list (Op Host)) s :
  Forall polling ops ->
  ~ In (StatusCall true) (evs (run ops s)) ->
  getReconnectAttempts (st (run ops s))
  = getReconnectAttempts s + Z.of_nat (reconnect_calls (evs (run ops s))) /\
  List.length (trigger_clocks ops s) = reconnect_calls (evs (run ops s)).
Proof.
  intros Hpoll. revert s.
  induction Hpoll as [|op ops Hop Hops IH]; intros s Hdown.
  { cbn. split; [lia|reflexivity]. }
  rewrite run_cons_evs, in_app_iff in Hdown.
  assert (Hdown' : ~ In (StatusCall true) (evs (run ops (st (exec op s)))))
    by tauto.
  destruct (IH _ Hdown') as (IHa & IHl).
  rewrite run_cons_st, run_cons_evs, reconnect_calls_app, Nat2Z.inj_add.
  cbn [trigger_clocks]. rewrite length_app, IHa, IHl.
  destruct op; cbn [polling] in Hop; try contradiction; cbn [exec] in *;
    [|unfold getReconnectAttempts; cbn; split; reflexivity].
  destruct (_statusCallback (sup s)) as [sc|] eqn:Hsc;
    [destruct (_reconnectCallback (sup s)) as [rc|] eqn:Hrc|].
  - destruct (poll_summary s sc rc Hsc Hrc)
      as (_ & Hatt & Hcalls & _ & _ & _ & _ & _ & Hin).
    destruct (fst (sc (host s))); [tauto|].
    rewrite Hatt, Hcalls.
    destruct (fires s); cbn [List.length Nat.add]; split; (lia || reflexivity).
  - unfold fires. rewrite loop_unset by auto. cbn [st evs reconnect_calls filter
      List.length Nat.eqb negb Nat.add]. split; [lia|reflexivity].
  - unfold fires. rewrite loop_unset by auto. cbn [st evs reconnect_calls filter
      List.length Nat.eqb negb Nat.add]. split; [lia|reflexivity].
Qed.

End Spacing.

Section Invariants.

Context {Host : Type} {board : Board Host}.

Ltac method_cases s :=
  destruct s as [[should was ? ? ? ? ? ? ? ? lcb ? ?] ?];
  unfold setMaxAttempts, setConnectionTimeout, setReconnectDelay,
    setConnectionName, setReconnectCallback, setStatusCallback, setLogCallback,
    setErrorCallback, enable, disable, reset, onConnectionAttemptStarted,
    onConnectionStatusChanged,
    getReconnectAttempts, getMaxReconnectAttempts, wasConnected in *;
  unfold bind, self, when, if_set, ret, store, call_log, millis;
  cbn [sup host] in *;
  try destruct lcb; try destruct should; try destruct was; cbn in *.

(** What a call of [loop] does to the attempt count and to the last
    known status, whether or not its callbacks are set. *)
Lemma loop_budget (s : Sys Host) :
  0 <= getReconnectAttempts s <= getMaxReconnectAttempts s ->
  0 <= getReconnectAttempts (st (loop s)) <= getMaxReconnectAttempts (st (loop s)).
Proof.
  intros Hinv.
  destruct (config_members _ _ (loop_config s)) as (Hmax & _).
  unfold getMaxReconnectAttempts. rewrite Hmax.
  fold (getMaxReconnectAttempts s).
  destruct (_statusCallback (sup s)) as [sc|] eqn:Hsc;
    [destruct (_reconnectCallback (sup s)) as [rc|] eqn:Hrc|];
    try (rewrite loop_unset by auto; exact Hinv).
  destruct (poll_summary s sc rc Hsc Hrc) as (_ & Hatt & _ & _ & _ & Hf & _).
  rewrite Hatt.
  destruct (fst (sc (host s))); [destruct (wasConnected s); lia|].
  destruct (fires s); [|lia].
  destruct Hf as (_ & _ & Hlt & _); [reflexivity|]. lia.
Qed.

(** Only a [setMaxAttempts] below the attempts made can break
    [0 <= attempts <= max]. *)
Lemma exec_budget (op : Op Host) s :
  match op with
  | SetMaxAttempts m => getReconnectAttempts s <= m
  | _ => True
  end ->
  0 <= getReconnectAttempts s <= getMaxReconnectAttempts s ->
  0 <= getReconnectAttempts (st (exec op s))
    <= getMaxReconnectAttempts (st (exec op s)).
Proof.
  intros Hop Hinv.
  destruct op; cbn [exec]; try apply loop_budget; try assumption.
  all: try destruct connected.
  all: method_cases s; lia.
Qed.

(** Every call leaves in [_wasConnected] the status it observed, if it
    observed one. *)
Lemma exec_wasConnected (op : Op Host) s :
  wasConnected (st (exec op s))
  = match observes op s with Some c => c | None => wasConnected s end /\
  wasConnected (st (exec op s))
  = match notifies op s with Some c => c | None => wasConnected s end.
Proof.
  destruct op; cbn [exec observes notifies].
  14:{ (* loop *)
    destruct (_statusCallback (sup s)) as [sc|] eqn:Hsc;
      [destruct (_reconnectCallback (sup s)) as [rc|] eqn:Hrc|];
      try (rewrite loop_unset by auto; split; reflexivity).
    destruct (poll_summary s sc rc Hsc Hrc) as (Hwas & _).
    rewrite Hwas. fold (wasConnected s). split; [reflexivity|].
    destruct (fst (sc (host s))), (wasConnected s); reflexivity. }
  all: try destruct connected.
  all: method_cases s; split; reflexivity.
Qed.

Lemma run_wasConnected (see : Op Host -> Sys Host -> option bool) :
  (forall op s,
     wasConnected (st (exec op s))
     = match see op s with Some c => c | None => wasConnected s end) ->
  forall ops s, wasConnected (st (run ops s)) = last_seen see ops s (wasConnected s).
Proof.
  intros Hsee ops. induction ops as [|op ops IH]; intros s; [reflexivity|].
  rewrite run_cons_st, IH, Hsee. reflexivity.
Qed.

Lemma run_budget (ops : list (Op Host)) s :
  budget_kept ops s ->
  0 <= getReconnectAttempts s <= getMaxReconnectAttempts s ->
  0 <= getReconnectAttempts (st (run ops s))
    <= getMaxReconnectAttempts (st (run ops s)).
Proof.
  revert s. induction ops as [|op ops IH]; intros s Hkept Hinv; [exact Hinv|].
  destruct Hkept as (Hop & Hkept).
  rewrite run_cons_st. apply IH; [exact Hkept|].
  apply exec_budget; [|exact Hinv].
  destruct op; auto.
Qed.

End Invariants.

(** ** Claims about runs and about the fresh supervisor *)

Section Claims.

Context {Host : Type} {board : Board Host}.

(** C3 (amended): in a run of polls that starts enabled with no attempt
    made and a positive budget [maxAttempts], in which the status
    callback never returns connected and exactly [maxAttempts] reconnect
    attempts are made, the call of [loop] that makes the last attempt is
    itself the one that sets enabled to false and, after the attempt,
    reports the exhaustion error; the error is reported exactly once over
    the whole run (an error callback being registered) and the
    supervisor ends disabled. *)
Theorem exhaustion_with_last_trigger (ops : list (Op Host)) (s : Sys Host) ecb :
  Forall polling ops ->
  getReconnectAttempts s = 0 ->
  isReconnectEnabled s = true ->
  0 < getMaxReconnectAttempts s ->
  _errorCallback (sup s) = Some ecb ->
  ~ In (StatusCall true) (evs (run ops s)) ->
  Z.of_nat (reconnect_calls (evs (run ops s))) = getMaxReconnectAttempts s ->
  let report := disabled_after_max (_connectionName (sup s)) in
  exists ops1 ops2,
    ops = ops1 ++ Loop :: ops2 /\
    (let s1 := st (run ops1 s) in
     fires s1 = true /\
     reconnect_calls (evs (run ops2 (st (loop s1)))) = 0%nat /\
     isReconnectEnabled s1 = true /\
     isReconnectEnabled (st (loop s1)) = false /\
     error_calls report (after_reconnect (evs (loop s1))) = 1%nat) /\
    error_calls report (evs (run ops s)) = 1%nat /\
    isReconnectEnabled (st (run ops s)) = false.
Proof.
  intros Hpoll Hzero Hon Hpos Hecb Hdown Hall report.
  assert (Hlt : getReconnectAttempts s < getMaxReconnectAttempts s) by lia.
  destruct (budget_run ops s Hpoll Hon Hlt Hdown)
    as [(_ & Hleft & _) | (_ & Hreports & Hoff & ops1 & ops2 & Hsplit & Hex)].
  { lia. }
  rewrite Hecb in Hreports. cbn [is_set] in Hreports.
  unfold exhausts_at in Hex. rewrite Hecb in Hex. cbn [is_set] in Hex.
  exists ops1, ops2. auto.
Qed.

(** C6: in every run of polls in which the status callback always
    returns false (on a clock that does not go backwards), the attempt
    count grows by exactly one with every invocation of the reconnect
    callback, and any two reconnect attempts are more than
    [reconnectDelayMs] apart, never less; this holds whatever the
    reconnect callback returns. *)
Theorem triggers_spaced_by_delay (ops : list (Op Host)) (s : Sys Host) sc rc :
  Forall polling ops -> steps_advance ops ->
  advances tick -> callbacks_advance (sup s) ->
  _statusCallback (sup s) = Some sc ->
  _reconnectCallback (sup s) = Some rc ->
  ~ In (StatusCall true) (evs (run ops s)) ->
  getReconnectAttempts (st (run ops s))
  = getReconnectAttempts s + Z.of_nat (reconnect_calls (evs (run ops s))) /\
  List.length (trigger_clocks ops s) = reconnect_calls (evs (run ops s)) /\
  ForallOrdPairs (fun c1 c2 => _reconnectDelayMs (sup s) < c2 - c1)
    (trigger_clocks ops s).
Proof.
  intros Hpoll Hsteps Htick Hadv Hsc Hrc Hdown.
  destruct (attempts_counted ops s Hpoll Hdown) as (Hcount & Hlen).
  repeat split; [exact Hcount | exact Hlen|].
  eapply spaced; eassumption.
Qed.

(** C7 (amended): in every state reached from a fresh supervisor by
    configuration, control, notification and poll calls, [wasConnected]
    is the most recently observed status: the argument of the last
    [onConnectionStatusChanged], explicit or made by [loop], and also
    what the status callback last returned to [loop]; [false] if there
    is none.  And [attemptCount <= maxAttempts] holds once enabled is
    false, provided no [setMaxAttempts] of the run passed a value below
    the attempts made by then. *)
Theorem disabled_within_budget (name : string) (h : Host) (ops : list (Op Host)) :
  let s0 := mkSys (AutoReconnect_new name) h in
  let s := st (run ops s0) in
  (budget_kept ops s0 ->
   isReconnectEnabled s = false ->
   getReconnectAttempts s <= getMaxReconnectAttempts s) /\
  wasConnected s = last_seen notifies ops s0 false /\
  wasConnected s = last_seen observes ops s0 false.
Proof.
  intros s0 s. repeat split.
  - intros Hkept _. apply (run_budget ops s0 Hkept). cbn. lia.
  - apply (run_wasConnected notifies (fun op s => proj2 (exec_wasConnected op s))).
  - apply (run_wasConnected observes (fun op s => proj1 (exec_wasConnected op s))).
Qed.

(** C9: a freshly constructed supervisor has enabled true, wasConnected
    false, no attempt made, both timestamps 0, maxAttempts 5,
    connectionTimeoutMs 15000 and reconnectDelayMs 30000; once its two
    callbacks are set it attempts to reconnect on a poll that finds the
    link down more than 30000 ms after boot, without any call of
    [enable]. *)
Theorem fresh_supervisor_decides (name : string) (h : Host) sc rc :
  let a := AutoReconnect_new name in
  let s := st (run [SetStatusCallback (Some sc); SetReconnectCallback (Some rc)]
                 (mkSys a h)) in
  (_shouldReconnect a = true /\ _wasConnected a = false /\
   _reconnectAttempts a = 0 /\ _lastConnectAttempt a = 0 /\
   _connectionStartTime a = 0 /\ _maxReconnectAttempts a = 5 /\
   _connectionTimeoutMs a = 15000 /\ _reconnectDelayMs a = 30000) /\
  (fst (sc h) = false ->
   30000 < ulong (clock (tick (snd (sc h)))) ->
   fires s = true /\ getReconnectAttempts (st (loop s)) = 1).
Proof.
  intros a s. split; [cbn; auto 10|]. intros Hdown Hlate.
  assert (Hsc : _statusCallback (sup s) = Some sc) by reflexivity.
  assert (Hrc : _reconnectCallback (sup s) = Some rc) by reflexivity.
  destruct (poll_summary s sc rc Hsc Hrc) as (_ & Hatt & _).
  destruct (at_decision_frame s sc Hsc) as (Hval & _ & _ & _ & _ & Hsame & _).
  change (host s) with h in *. rewrite Hdown in *.
  specialize (Hsame eq_refl Hval).
  assert (Hf : fires s = true).
  { destruct (fires s) eqn:Hf; [reflexivity|]. exfalso.
    assert (Hno : ~ exists ok, In (ReconnectCall ok) (evs (loop s))).
    { unfold fires in Hf. apply negb_false_iff, Nat.eqb_eq in Hf.
      intros (ok & Hin). unfold reconnect_calls in Hf.
      apply length_zero_iff_nil in Hf.
      assert (Hin' : In (ReconnectCall ok) (filter is_reconnect_call (evs (loop s))))
        by (apply filter_In; split; [exact Hin|reflexivity]).
      rewrite Hf in Hin'. exact Hin'. }
    apply Hno. apply (fires_when_due s sc rc Hsc Hrc).
    unfold decision_clock. rewrite Hsame. cbn.
    split; [exact Hdown|]. split; [reflexivity|]. split; [lia|].
    unfold usub. rewrite Z.sub_0_r. unfold ulong at 1.
    rewrite Z.mod_small by apply ulong_range. exact Hlate. }
  rewrite Hatt, Hf. split; reflexivity.
Qed.

(** C10: [setMaxAttempts] stores any integer as it is, zero and negative
    ones included; when the value stored is at most the attempts already
    made, the next poll of an enabled supervisor that finds the link
    down makes no reconnect attempt and leaves the attempt count as it
    was, yet sets enabled to false and reports the exhaustion error (to
    the error callback, if one is registered). *)
Theorem lowered_budget_exhausts (s : Sys Host) (m : Z) (f : Host -> Host) sc rc :
  let s1 := st (run [SetMaxAttempts m; HostStep f] s) in
  (getMaxReconnectAttempts s1 = m /\
   sup s1 = with_maxReconnectAttempts m (sup s) /\
   evs (setMaxAttempts m s) = []) /\
  (_statusCallback (sup s) = Some sc ->
   _reconnectCallback (sup s) = Some rc ->
   isReconnectEnabled s = true ->
   m <= getReconnectAttempts s ->
   fst (sc (host s1)) = false ->
   reconnect_calls (evs (loop s1)) = 0%nat /\
   getReconnectAttempts (st (loop s1)) = getReconnectAttempts s /\
   isReconnectEnabled (st (loop s1)) = false /\
   error_calls (disabled_after_max (_connectionName (sup s))) (evs (loop s1))
   = (if is_set (_errorCallback (sup s)) then 1 else 0)%nat).
Proof.
  intros s1. split; [repeat split|].
  intros Hsc Hrc Hon Hle Hdown.
  assert (Hsc1 : _statusCallback (sup s1) = Some sc) by exact Hsc.
  assert (Hrc1 : _reconnectCallback (sup s1) = Some rc) by exact Hrc.
  destruct (poll_summary s1 sc rc Hsc1 Hrc1)
    as (_ & Hatt & Hcalls & Hen & Herr & Hf & _).
  rewrite Hdown in *.
  change (getReconnectAttempts s1) with (getReconnectAttempts s) in *.
  change (getMaxReconnectAttempts s1) with m in *.
  change (isReconnectEnabled s1) with (isReconnectEnabled s) in *.
  change (_connectionName (sup s1)) with (_connectionName (sup s)) in *.
  change (_errorCallback (sup s1)) with (_errorCallback (sup s)) in *.
  destruct (fires s1).
  { destruct Hf as (_ & _ & Hlt & _); [reflexivity|]. lia. }
  rewrite Z.add_0_r in Hatt. rewrite Hatt in Hen, Herr.
  rewrite Hcalls, Hatt, Hen, Herr, Hon.
  destruct (Z.leb_spec m (getReconnectAttempts s)); [|lia].
  cbn. auto.
Qed.

End Claims.

(** ** The scenarios on the test bench *)

Section Bench.

Import TestHost.

#[local] Existing Instance bench.

#[local] Arguments ulong : simpl never.
#[local] Arguments usub : simpl never.

(** The trace of the whole scenario of the specification, polled at 0,
    50, 150 and 300 ms and twice more: the first attempt has to wait for
    the delay, and the second attempt and the exhaustion come in one
    call. *)
Example scenario_trace :
  evs (run [Loop; at_time 50; Loop; at_time 150; Loop; at_time 300; Loop;
            at_time 450; Loop; at_time 100000; Loop] configured)
  = [ StatusCall false; StatusCall false;
      StatusCall false; ReconnectCall true;
      StatusCall false; ReconnectCall true;
      ErrorCall "Connection auto-reconnect disabled after max attempts";
      StatusCall false; StatusCall false ].
Proof. reflexivity. Qed.

(** C4, as stated, fails: the first poll at time 0 makes no attempt. *)
Lemma first_poll_at_zero_idle :
  ~ ((exists ok, In (ReconnectCall ok) (evs (first_poll 0))) /\
     getReconnectAttempts (st (first_poll 0)) = 1).
Proof.
  intros (_ & Hcount). vm_compute in Hcount. discriminate Hcount.
Qed.

(** C4 (amended): on a freshly constructed supervisor configured with
    [maxAttempts=2] and [reconnectDelayMs=100], status callback always
    false and trigger callback always true, the first poll at time 0
    makes no attempt and leaves the attempt count at 0, because
    [lastAttemptTime] starts at 0 and the elapsed time must exceed the
    delay; the first poll at a time [t] makes attempt #1 and leaves the
    count at 1 exactly when [t] (as an [unsigned long]) exceeds 100. *)
Theorem first_poll_waits_for_delay :
  (evs (first_poll 0) = [StatusCall false] /\
   getReconnectAttempts (st (first_poll 0)) = 0) /\
  forall t,
    evs (first_poll t)
    = StatusCall false :: (if 100 <? ulong t then [ReconnectCall true] else []) /\
    getReconnectAttempts (st (first_poll t)) = (if 100 <? ulong t then 1 else 0).
Proof.
  split; [split; reflexivity|]. intros t.
  unfold first_poll, getReconnectAttempts. cbn [run exec].
  unfold loop, onConnectionStatusChanged, bind, self, when, if_set, ret, store,
    call_status, call_log, call_error, call_reconnect, millis.
  cbn.
  change (usub (ulong t) 0) with (ulong (ulong t - 0)).
  rewrite Z.sub_0_r.
  replace (ulong (ulong t)) with (ulong t)
    by (symmetry; apply ulong_small, ulong_range).
  change (ulong 100) with 100.
  destruct (100 <? ulong t); split; reflexivity.
Qed.


(** C3, as stated, fails: when the two attempts of the budget have been
    made with the link never seen up, enabled is already false and the
    error already reported before the next poll, which changes nothing
    and reports nothing. *)
Lemma next_poll_finds_it_disabled :
  Z.of_nat (reconnect_calls (evs (run to_last_trigger configured)))
  = getMaxReconnectAttempts configured /\
  ~ In (StatusCall true) (evs (run (to_last_trigger ++ [wait 150; Loop]) configured)) /\
  ~ (isReconnectEnabled exhausted = true /\
     isReconnectEnabled (st next_poll) = false) /\
  error_calls (disabled_after_max default_connectionName) (evs next_poll) = 0%nat /\
  sup (st next_poll) = sup exhausted.
Proof.
  split; [reflexivity|]. split.
  { vm_compute. intuition discriminate. }
  split; [|split; vm_compute; reflexivity].
  intros (Hon & _). vm_compute in Hon. discriminate Hon.
Qed.

(** C7, as stated, fails: after two attempts the budget is lowered to 1,
    and the next poll disables the supervisor with more attempts made
    than its budget. *)
Lemma lowered_budget_breaks_bound :
  isReconnectEnabled lowered = false /\
  getReconnectAttempts lowered = 2 /\
  getMaxReconnectAttempts lowered = 1 /\
  ~ (getReconnectAttempts lowered <= getMaxReconnectAttempts lowered).
Proof.
  repeat split; try (vm_compute; reflexivity).
  vm_compute. intros H. apply H. reflexivity.
Qed.

Lemma bench_callbacks_advance : callbacks_advance (sup configured).
Proof.
  repeat split; intros cb Hcb; vm_compute in Hcb;
    first [discriminate Hcb | injection Hcb as <-]; intros; intros h; cbn; lia.
Qed.

Lemma bench_tick_advances : advances tick.
Proof. intros h. cbn. lia. Qed.

Lemma three_polls_polling : Forall polling three_polls.
Proof. repeat constructor. Qed.

Lemma three_polls_advance : steps_advance three_polls.
Proof. repeat constructor; intros h; cbn; lia. Qed.

Lemma three_polls_down :
  ~ In (StatusCall true) (evs (run three_polls configured)).
Proof. vm_compute. intuition discriminate. Qed.

(** The poll at 150 ms, the first that attempts. *)
Lemma loop_triggers_iff_witness :
  let s := st (run [wait 150] configured) in
  _statusCallback (sup s) = Some never_connected /\
  _reconnectCallback (sup s) = Some always_initiated /\
  ((exists ok, In (ReconnectCall ok) (evs (loop s))) <->
   (fst (never_connected (host s)) = false /\
    isReconnectEnabled (st (at_decision s)) = true /\
    getReconnectAttempts (st (at_decision s))
      < getMaxReconnectAttempts (st (at_decision s)) /\
    _reconnectDelayMs (sup (st (at_decision s))) <
      usub (ulong (decision_clock s)) (getLastAttemptTime (st (at_decision s))))).
Proof.
  intros s. split; [reflexivity|]. split; [reflexivity|].
  apply (loop_triggers_iff s never_connected always_initiated); reflexivity.
Defined.

(** The poll at 300 ms, which takes the second and last slot. *)
Lemma exhaustion_in_same_call_witness :
  let s := st (run [wait 150; Loop; wait 150] configured) in
  In (ReconnectCall true) (evs (loop s)) /\
  getReconnectAttempts (st (loop s)) = getMaxReconnectAttempts (st (loop s)) /\
  isReconnectEnabled s = true /\
  isReconnectEnabled (st (loop s)) = false /\
  error_calls (disabled_after_max (_connectionName (sup s)))
    (after_reconnect (evs (loop s))) = 1%nat.
Proof.
  intros s.
  assert (Hin : In (ReconnectCall true) (evs (loop s))) by (vm_compute; auto).
  assert (Hfull : getReconnectAttempts (st (loop s))
                  = getMaxReconnectAttempts (st (loop s)))
    by (vm_compute; reflexivity).
  destruct (exhaustion_in_same_call s never_connected always_initiated true
              eq_refl eq_refl Hin Hfull) as (_ & Hon & _ & Hoff & Hreport).
  auto.
Defined.

Lemma exhaustion_with_last_trigger_witness :
  exists ops1 ops2,
    three_polls = ops1 ++ Loop :: ops2 /\
    (let s1 := st (run ops1 configured) in
     fires s1 = true /\
     reconnect_calls (evs (run ops2 (st (loop s1)))) = 0%nat /\
     isReconnectEnabled s1 = true /\
     isReconnectEnabled (st (loop s1)) = false /\
     error_calls (disabled_after_max (_connectionName (sup configured)))
       (after_reconnect (evs (loop s1))) = 1%nat) /\
    error_calls (disabled_after_max (_connectionName (sup configured)))
      (evs (run three_polls configured)) = 1%nat /\
    isReconnectEnabled (st (run three_polls configured)) = false.
Proof.
  apply (exhaustion_with_last_trigger three_polls configured sink).
  - exact three_polls_polling.
  - reflexivity.
  - reflexivity.
  - reflexivity.
  - reflexivity.
  - exact three_polls_down.
  - reflexivity.
Defined.

(** The poll at 150 ms: attempt #1, recorded at 150 ms. *)
Lemma attempt_bookkeeping_witness :
  let s := st (run [wait 150] configured) in
  In (ReconnectCall true) (evs (loop s)) /\
  getReconnectAttempts (st (loop s)) = getReconnectAttempts s + 1 /\
  getLastAttemptTime (st (loop s)) = ulong (attempt_clock s) /\
  _connectionStartTime (sup (st (loop s))) = ulong (start_clock s) /\
  error_calls (failed_to_start (_connectionName (sup s))) (evs (loop s)) = 0%nat.
Proof.
  intros s.
  assert (Hin : In (ReconnectCall true) (evs (loop s))) by (vm_compute; auto).
  split; [exact Hin|].
  exact (attempt_bookkeeping s never_connected always_initiated true
           eq_refl eq_refl Hin).
Defined.

Lemma triggers_spaced_by_delay_witness :
  getReconnectAttempts (st (run three_polls configured))
  = getReconnectAttempts configured
    + Z.of_nat (reconnect_calls (evs (run three_polls configured))) /\
  List.length (trigger_clocks three_polls configured)
  = reconnect_calls (evs (run three_polls configured)) /\
  ForallOrdPairs (fun c1 c2 => _reconnectDelayMs (sup configured) < c2 - c1)
    (trigger_clocks three_polls configured).
Proof.
  apply (triggers_spaced_by_delay three_polls configured
           never_connected always_initiated).
  - exact three_polls_polling.
  - exact three_polls_advance.
  - exact bench_tick_advances.
  - exact bench_callbacks_advance.
  - reflexivity.
  - reflexivity.
  - exact three_polls_down.
Defined.

Lemma disabled_within_budget_witness :
  let ops := scenario ++ three_polls in
  budget_kept ops fresh /\
  isReconnectEnabled (st (run ops fresh)) = false /\
  getReconnectAttempts (st (run ops fresh))
  <= getMaxReconnectAttempts (st (run ops fresh)) /\
  wasConnected (st (run ops fresh)) = last_seen notifies ops fresh false /\
  wasConnected (st (run ops fresh)) = last_seen observes ops fresh false.
Proof.
  intros ops.
  assert (Hkept : budget_kept ops fresh) by (vm_compute; intuition discriminate).
  assert (Hoff : isReconnectEnabled (st (run ops fresh)) = false)
    by (vm_compute; reflexivity).
  destruct (disabled_within_budget default_connectionName 0 ops)
    as (Hbound & Hnotified & Hobserved).
  split; [exact Hkept|]. split; [exact Hoff|].
  split; [exact (Hbound Hkept Hoff)|]. split; assumption.
Defined.

Lemma loop_without_callbacks_witness :
  (_statusCallback (sup fresh) = None \/ _reconnectCallback (sup fresh) = None) /\
  loop fresh = mkOut tt fresh [].
Proof.
  split; [left; reflexivity|].
  apply loop_without_callbacks. left. reflexivity.
Defined.

Lemma fresh_supervisor_decides_witness :
  let s := st (run [SetStatusCallback (Some never_connected);
                    SetReconnectCallback (Some always_initiated)]
                 (mkSys (AutoReconnect_new default_connectionName) 40000)) in
  fst (never_connected 40000) = false /\
  30000 < ulong (clock (tick (snd (never_connected 40000)))) /\
  fires s = true /\ getReconnectAttempts (st (loop s)) = 1.
Proof.
  intros s. split; [reflexivity|]. split; [reflexivity|].
  apply (fresh_supervisor_decides default_connectionName 40000
           never_connected always_initiated); reflexivity.
Defined.

(** After the attempt at 150 ms the budget is lowered to 1. *)
Lemma lowered_budget_exhausts_witness :
  let s := st (run [wait 150; Loop] configured) in
  let s1 := st (run [SetMaxAttempts 1; wait 10] s) in
  1 <= getReconnectAttempts s /\
  isReconnectEnabled s = true /\
  reconnect_calls (evs (loop s1)) = 0%nat /\
  getReconnectAttempts (st (loop s1)) = getReconnectAttempts s /\
  isReconnectEnabled (st (loop s1)) = false /\
  error_calls (disabled_after_max (_connectionName (sup s))) (evs (loop s1))
  = 1%nat.
Proof.
  intros s s1.
  assert (Hle : 1 <= getReconnectAttempts s) by (vm_compute; discriminate).
  split; [exact Hle|]. split; [reflexivity|].
  exact (proj2 (lowered_budget_exhausts s 1 (fun h => h + 10)
                  never_connected always_initiated)
           eq_refl eq_refl eq_refl Hle eq_refl).
Defined.

End Bench.

(** * Further properties *)

Section MorePolls.

Context {Host : Type} {board : Board Host}.

Local Open Scope sup_scope.

#[local] Arguments String.append : simpl never.
#[local] Arguments String_of_int : simpl never.
#[local] Arguments ulong : simpl never.
#[local] Arguments usub : simpl never.

Ltac monad_in E :=
  unfold bind, self, when, if_set, ret, store, call_status, call_log,
    call_error, call_reconnect, millis in E.

Ltac cmp_to_Z :=
  repeat match goal with
  | H : (_ <? _) = true |- _ => apply Z.ltb_lt in H
  | H : (_ <? _) = false |- _ => apply Z.ltb_ge in H
  | H : (_ <=? _) = true |- _ => apply Z.leb_le in H
  | H : (_ <=? _) = false |- _ => apply Z.leb_gt in H
  end.

Ltac branch_in E :=
  match type of E with
  | context [?a <? ?b] => destruct (a <? b) eqn:?
  | context [?a <=? ?b] => destruct (a <=? b) eqn:?
  | context [match ?o with Some _ => _ | None => _ end] => destruct o eqn:?
  | context [if negb ?b then _ else _] => destruct b eqn:?
  | context [if ?b then _ else _] => destruct b eqn:?
  end;
  cbn in E.

Ltac settle_cmp :=
  repeat match goal with
  | |- context [?a <=? ?b] => destruct (Z.leb_spec a b); try lia
  | |- context [?a <? ?b] => destruct (Z.ltb_spec a b); try lia
  end;
  cbn.

(** Every path through [loop s], computed once and put back in the goal
    together with the state at the reconnect decision. *)
Ltac poll_cases s :=
  let h := fresh "h" in
  let should := fresh "should" in let was := fresh "was" in
  let cc := fresh "cc" in let h1 := fresh "h" in
  let out := fresh "out" in let Eout := fresh "Eout" in
  let dec := fresh "dec" in let Edec := fresh "Edec" in
  unfold fires, decision_clock, attempt_clock, start_clock in *;
  remember (at_decision s) as dec eqn:Edec;
  remember (loop s) as out eqn:Eout;
  destruct s as [[should was ? ? ? ? ? ? ? ? ? ? ?] h];
  cbn [sup host _statusCallback _reconnectCallback _logCallback
       _errorCallback] in *;
  repeat match goal with H : ?x = Some _ |- _ => is_var x; subst x end;
  unfold at_decision, update_status, onConnectionStatusChanged in Edec;
  unfold loop, onConnectionStatusChanged in Eout;
  monad_in Edec; monad_in Eout;
  cbn [sup host _statusCallback _reconnectCallback] in Edec, Eout;
  match type of Edec with
  | context [?f h] =>
    lazymatch type of f with
    | StatusCallback _ => destruct (f h) as [cc h1] in Edec, Eout |- *
    end
  end;
  destruct cc, was, should;
  cbn in Edec; repeat branch_in Edec;
  cbn in Eout; repeat branch_in Eout;
  subst out dec;
  unfold isReconnectEnabled, getReconnectAttempts, getMaxReconnectAttempts,
    getLastAttemptTime, wasConnected, reconnect_calls, error_calls,
    all_error_calls, if_registered, is_set,
    failed_to_start, disabled_after_max, connected_successfully,
    will_attempt_reconnect, reconnecting, config;
  cbn; rewrite ?eqb_append_head; cbn; cmp_to_Z.

(** [fires] says that the reconnect callback is invoked. *)
Lemma fires_iff_called (s : Sys Host) :
  fires s = true <-> exists ok, In (ReconnectCall ok) (evs (loop s)).
Proof.
  unfold fires, reconnect_calls. split.
  - intros Hf. apply negb_true_iff, Nat.eqb_neq in Hf.
    destruct (filter is_reconnect_call (evs (loop s))) as [|e es] eqn:Hfil;
      [contradiction Hf; reflexivity|].
    assert (Hin : In e (filter is_reconnect_call (evs (loop s))))
      by (rewrite Hfil; left; reflexivity).
    apply filter_In in Hin. destruct Hin as (Hin & Hrec).
    destruct e; try discriminate Hrec. eauto.
  - intros (ok & Hin). apply negb_true_iff, Nat.eqb_neq. intros Hlen.
    apply length_zero_iff_nil in Hlen.
    assert (Hin' : In (ReconnectCall ok) (filter is_reconnect_call (evs (loop s))))
      by (apply filter_In; split; [exact Hin|reflexivity]).
    rewrite Hlen in Hin'. exact Hin'.
Qed.

(** A poll of a stopped supervisor invokes neither the reconnect
    callback nor the error callback and leaves it stopped. *)
Lemma disabled_poll_silent (s : Sys Host) sc rc :
  _statusCallback (sup s) = Some sc ->
  _reconnectCallback (sup s) = Some rc ->
  isReconnectEnabled s = false ->
  reconnect_calls (evs (loop s)) = 0%nat /\
  all_error_calls (evs (loop s)) = 0%nat /\
  isReconnectEnabled (st (loop s)) = false.
Proof.
  intros Hsc Hrc. poll_cases s; intros Hoff; try discriminate Hoff.
  all: repeat split; reflexivity.
Qed.

(** X1: a poll that finds the link up invokes neither the reconnect
    callback nor the error callback and leaves enabled and
    [lastAttemptTime] alone; if the link was down before, it resets the
    attempt count to 0 and logs "connected successfully" once (when a
    log callback is registered), otherwise it logs nothing. *)
Theorem poll_finds_link_up (s : Sys Host) sc rc :
  _statusCallback (sup s) = Some sc ->
  _reconnectCallback (sup s) = Some rc ->
  fst (sc (host s)) = true ->
  evs (loop s)
  = StatusCall true
    :: (if wasConnected s then []
        else if_registered (_logCallback (sup s))
               (LogCall (connected_successfully (_connectionName (sup s))))) /\
  wasConnected (st (loop s)) = true /\
  getReconnectAttempts (st (loop s))
  = (if wasConnected s then getReconnectAttempts s else 0) /\
  isReconnectEnabled (st (loop s)) = isReconnectEnabled s /\
  getLastAttemptTime (st (loop s)) = getLastAttemptTime s.
Proof.
  intros Hsc Hrc. poll_cases s; intros Hup; try discriminate Hup.
  all: repeat split; reflexivity.
Qed.

(** X12: the complete trace of a poll: the status query and what the
    status handler logs; then, if the poll attempts, the "reconnecting
    (k/max)" log with the new attempt number, the reconnect callback and,
    if it returns false, the "failed to start" error; then the
    exhaustion error if the budget is used up while the link is down and
    the supervisor was enabled. *)
Theorem poll_trace (s : Sys Host) sc rc :
  _statusCallback (sup s) = Some sc ->
  _reconnectCallback (sup s) = Some rc ->
  let name := _connectionName (sup s) in
  let log := _logCallback (sup s) in
  let err := _errorCallback (sup s) in
  exists ok,
    evs (loop s)
    = evs (at_decision s)
      ++ (if fires s
          then if_registered log
                 (LogCall (reconnecting name (getReconnectAttempts s + 1)
                             (getMaxReconnectAttempts s)))
               ++ [ReconnectCall ok]
               ++ (if ok then []
                   else if_registered err (ErrorCall (failed_to_start name)))
          else [])
      ++ (if isReconnectEnabled s && negb (fst (sc (host s)))
             && (getMaxReconnectAttempts s
                 <=? getReconnectAttempts (st (loop s)))
          then if_registered err (ErrorCall (disabled_after_max name))
          else []).
Proof.
  intros Hsc Hrc. poll_cases s.
  all: settle_cmp.
  all: first [ exists true; reflexivity | exists false; reflexivity ].
Qed.


(** X7: the status update of a poll is the explicit handler applied to
    what the status callback returned; the test
    [currentlyConnected != _wasConnected] that guards it in [loop] changes
    nothing. *)
Theorem poll_update_is_notification (s : Sys Host) sc :
  _statusCallback (sup s) = Some sc ->
  let r := sc (host s) in
  let n := onConnectionStatusChanged (fst r) (mkSys (sup s) (snd r)) in
  at_decision s = mkOut (fst r) (st n) (StatusCall (fst r) :: evs n).
Proof.
  intros Hsc.
  destruct s as [[should was ? ? ? ? ? ? ? ? lcb ? ?] h]; cbn in Hsc; subst.
  unfold at_decision, update_status, onConnectionStatusChanged.
  unfold bind, self, when, if_set, ret, store, call_status, call_log, millis.
  cbn [sup host _statusCallback].
  destruct (sc h) as [cc h1]; destruct cc, was, should, lcb; reflexivity.
Qed.

(** X6: a notification that repeats the last known status does nothing:
    no member changes, the clock is not read and nothing is logged. *)
Theorem repeated_notification_is_noop (s : Sys Host) (connected : bool) :
  wasConnected s = connected ->
  onConnectionStatusChanged connected s = mkOut tt s [].
Proof.
  intros Hwas.
  destruct s as [[should was ? ? ? ? ? ? ? ? lcb ? ?] h]; cbn in Hwas; subst.
  unfold onConnectionStatusChanged.
  unfold bind, self, when, if_set, ret, store, call_log, millis.
  destruct connected; reflexivity.
Qed.

(** X8: the poll that sees the link drop does not attempt to reconnect in
    that same call, on a clock that stands still during the call: an
    enabled supervisor stamps [lastAttemptTime] with the time of the
    drop, so the first attempt has to wait for the delay; the attempt
    count is unchanged. *)
Theorem link_loss_waits (s : Sys Host) sc rc :
  _statusCallback (sup s) = Some sc ->
  _reconnectCallback (sup s) = Some rc ->
  wasConnected s = true ->
  fst (sc (host s)) = false ->
  (forall h, clock (tick h) = clock h) ->
  (forall cb, _logCallback (sup s) = Some cb ->
   forall msg h, clock (cb msg h) = clock h) ->
  0 <= _reconnectDelayMs (sup s) ->
  fires s = false /\
  getReconnectAttempts (st (loop s)) = getReconnectAttempts s /\
  wasConnected (st (loop s)) = false /\
  getLastAttemptTime (st (loop s))
  = (if isReconnectEnabled s then ulong (clock (snd (sc (host s))))
     else getLastAttemptTime s).
Proof.
  intros Hsc Hrc Hwas Hdown Hsteady Hlog.
  revert Hwas Hdown Hlog.
  poll_cases s; intros Hwas Hdown Hlog Hdelay;
    try discriminate Hwas; try discriminate Hdown.
  all: repeat match goal with
       | H : forall cb, Some ?l = Some cb -> _ |- _ => specialize (H l eq_refl)
       end.
  all: rewrite ?Hsteady, ?Hlog in *.
  all: try (unfold usub in *; rewrite ?Hsteady, ?Z.sub_diag in *;
            change (ulong 0) with 0 in *).
  all: try lia.
  all: repeat split; reflexivity.
Qed.

End MorePolls.

Section ControlMethods.

Context {Host : Type} {board : Board Host}.

#[local] Arguments String.append : simpl never.

Ltac control_cases s :=
  destruct s as [[should was ? ? ? ? ? ? ? ? lcb ? ?] ?];
  unfold enable, disable, reset, onConnectionAttemptStarted,
    isReconnectEnabled, getReconnectAttempts, getMaxReconnectAttempts,
    getLastAttemptTime, wasConnected, if_registered, is_set,
    reconnect_enabled, reconnect_disabled in *;
  unfold bind, self, when, if_set, ret, store, call_log, millis;
  cbn [sup host] in *;
  try destruct lcb; cbn in *.

(** What [enable] leaves behind. *)
Lemma enable_effect (s : Sys Host) :
  let s1 := st (enable s) in
  isReconnectEnabled s1 = true /\
  getReconnectAttempts s1 = 0 /\
  wasConnected s1 = wasConnected s /\
  getLastAttemptTime s1 = getLastAttemptTime s /\
  config (sup s1) = config (sup s) /\
  evs (enable s)
  = if_registered (_logCallback (sup s))
      (LogCall (reconnect_enabled (_connectionName (sup s)))).
Proof. control_cases s; repeat split; reflexivity. Qed.

(** What [disable] leaves behind. *)
Lemma disable_effect (s : Sys Host) :
  let s1 := st (disable s) in
  isReconnectEnabled s1 = false /\
  getReconnectAttempts s1 = getReconnectAttempts s /\
  config (sup s1) = config (sup s) /\
  evs (disable s)
  = if_registered (_logCallback (sup s))
      (LogCall (reconnect_disabled (_connectionName (sup s)))).
Proof. control_cases s; repeat split; reflexivity. Qed.

(** X2: [disable] cancels: it keeps the attempt count, and after it no
    sequence of polls invokes the reconnect callback or reports
    exhaustion, whatever the link does; the supervisor stays disabled. *)
Theorem disable_stops_polling (s : Sys Host) (ops : list (Op Host)) :
  Forall polling ops ->
  let s1 := st (disable s) in
  getReconnectAttempts s1 = getReconnectAttempts s /\
  reconnect_calls (evs (run ops s1)) = 0%nat /\
  error_calls (disabled_after_max (_connectionName (sup s))) (evs (run ops s1))
  = 0%nat /\
  isReconnectEnabled (st (run ops s1)) = false.
Proof.
  intros Hpoll s1.
  destruct (disable_effect s) as (Hoff & Hkeep & Hcfg & _).
  destruct (config_members _ _ Hcfg) as (_ & _ & _ & _ & _ & _ & Hname).
  destruct (disabled_run_quiet ops s1 Hpoll Hoff) as (Hc & He & Hoff').
  fold s1 in Hname. rewrite Hname in He. auto.
Qed.

(** X4: [enable] re-arms a stopped supervisor: with a positive budget and
    the link known to be down, the next poll that finds it still down
    more than the delay after [lastAttemptTime] makes attempt #1. *)
Theorem enable_rearms (s : Sys Host) sc rc :
  _statusCallback (sup s) = Some sc ->
  _reconnectCallback (sup s) = Some rc ->
  let s1 := st (enable s) in
  wasConnected s = false ->
  0 < getMaxReconnectAttempts s ->
  fst (sc (host s1)) = false ->
  _reconnectDelayMs (sup s)
    < usub (ulong (decision_clock s1)) (getLastAttemptTime s) ->
  isReconnectEnabled s1 = true /\
  fires s1 = true /\
  getReconnectAttempts (st (loop s1)) = 1.
Proof.
  intros Hsc Hrc s1 Hwas Hmax Hdown Hdue.
  destruct (enable_effect s) as (Hon & Hzero & Hwas1 & Hlast & Hcfg & _).
  fold s1 in Hon, Hzero, Hwas1, Hlast, Hcfg.
  destruct (config_members _ _ Hcfg) as (Hm & Hd & Hrc1 & Hsc1 & _).
  rewrite Hsc in Hsc1. rewrite Hrc in Hrc1. rewrite Hwas in Hwas1.
  destruct (at_decision_frame s1 sc Hsc1) as (Hval & _ & _ & _ & _ & Hsame & _).
  rewrite Hdown in Hval. specialize (Hsame Hwas1 Hval).
  assert (Hf : fires s1 = true).
  { apply fires_iff_called. apply (fires_when_due s1 sc rc Hsc1 Hrc1).
    rewrite Hsame.
    unfold isReconnectEnabled, getReconnectAttempts, getMaxReconnectAttempts,
      getLastAttemptTime in *. cbn [sup].
    rewrite Hon, Hzero, Hm, Hd, Hlast. auto. }
  destruct (poll_summary s1 sc rc Hsc1 Hrc1) as (_ & Hatt & _).
  rewrite Hdown, Hf, Hzero in Hatt. auto.
Qed.

(** X5: [reset] forgets when the last attempt was made: an enabled
    supervisor with budget and the link down attempts on the next poll
    exactly when the clock read by that poll, as an [unsigned long],
    exceeds the delay, however recent the last attempt was. *)
Theorem reset_forgets_spacing (s : Sys Host) sc rc :
  _statusCallback (sup s) = Some sc ->
  _reconnectCallback (sup s) = Some rc ->
  let s1 := st (reset s) in
  wasConnected s = false ->
  isReconnectEnabled s = true ->
  0 < getMaxReconnectAttempts s ->
  fst (sc (host s)) = false ->
  evs (reset s) = [] /\
  (fires s1 = true <-> _reconnectDelayMs (sup s) < ulong (decision_clock s1)).
Proof.
  intros Hsc Hrc s1 Hwas Hon Hmax Hdown. split; [reflexivity|].
  assert (Hsc1 : _statusCallback (sup s1) = Some sc) by exact Hsc.
  assert (Hrc1 : _reconnectCallback (sup s1) = Some rc) by exact Hrc.
  assert (Hwas1 : wasConnected s1 = false) by exact Hwas.
  assert (Hdown1 : fst (sc (host s1)) = false) by exact Hdown.
  destruct (at_decision_frame s1 sc Hsc1) as (Hval & _ & _ & _ & _ & Hsame & _).
  rewrite Hdown1 in Hval. specialize (Hsame Hwas1 Hval).
  assert (Hzero : usub (ulong (decision_clock s1)) 0 = ulong (decision_clock s1)).
  { unfold usub. rewrite Z.sub_0_r. apply ulong_small, ulong_range. }
  assert (Hlast0 : forall h, getLastAttemptTime (mkSys (sup s1) h) = 0)
    by reflexivity.
  split.
  - intros Hf.
    destruct (poll_summary s1 sc rc Hsc1 Hrc1) as (_ & _ & _ & _ & _ & Hfire & _).
    destruct (Hfire Hf) as (_ & _ & _ & Hdue & _).
    rewrite Hsame, Hlast0, Hzero in Hdue. exact Hdue.
  - intros Hdue. apply fires_iff_called.
    apply (fires_when_due s1 sc rc Hsc1 Hrc1).
    rewrite Hsame, Hlast0, Hzero.
    repeat split; auto.
Qed.

(** X9: [enable] and [disable] are idempotent on the supervisor: a second
    call in a row changes no member; each call logs once when a log
    callback is registered. *)
Theorem control_idempotent (s : Sys Host) :
  sup (st (run [Enable; Enable] s)) = sup (st (enable s)) /\
  sup (st (run [Disable; Disable] s)) = sup (st (disable s)) /\
  evs (run [Enable; Enable] s)
  = if_registered (_logCallback (sup s))
      (LogCall (reconnect_enabled (_connectionName (sup s))))
    ++ if_registered (_logCallback (sup s))
         (LogCall (reconnect_enabled (_connectionName (sup s)))) /\
  evs (run [Disable; Disable] s)
  = if_registered (_logCallback (sup s))
      (LogCall (reconnect_disabled (_connectionName (sup s))))
    ++ if_registered (_logCallback (sup s))
         (LogCall (reconnect_disabled (_connectionName (sup s)))).
Proof.
  cbn [run exec]. control_cases s; repeat split; reflexivity.
Qed.

End ControlMethods.

Section MoreRuns.

Context {Host : Type} {board : Board Host}.

#[local] Arguments String.append : simpl never.
#[local] Arguments String_of_int : simpl never.

Ltac call_cases s :=
  destruct s as [[should was ? ? ? ? ? ? ? ? lcb ? ?] ?];
  unfold setMaxAttempts, setConnectionTimeout, setReconnectDelay,
    setConnectionName, setReconnectCallback, setStatusCallback, setLogCallback,
    setErrorCallback, enable, disable, reset, onConnectionAttemptStarted,
    onConnectionStatusChanged,
    getReconnectAttempts, getMaxReconnectAttempts, wasConnected,
    reconnect_calls in *;
  unfold bind, self, when, if_set, ret, store, call_log, millis;
  cbn [sup host] in *;
  try destruct lcb; try destruct should; try destruct was; cbn in *.

(** X10: an attempt announced by the host with
    [onConnectionAttemptStarted] takes no slot of the budget and invokes
    no callback, but it postpones the automatic ones: while the link
    stays down, every reconnect attempt of the polls that follow comes
    more than the delay after it. *)
Theorem announced_attempt_spaces_polls (ops : list (Op Host)) (s : Sys Host) sc rc :
  Forall polling ops -> steps_advance ops ->
  advances tick -> callbacks_advance (sup s) ->
  _statusCallback (sup s) = Some sc ->
  _reconnectCallback (sup s) = Some rc ->
  wasConnected s = false ->
  let s1 := st (onConnectionAttemptStarted s) in
  ~ In (StatusCall true) (evs (run ops s1)) ->
  getReconnectAttempts s1 = getReconnectAttempts s /\
  evs (onConnectionAttemptStarted s) = [] /\
  Forall (fun c => _reconnectDelayMs (sup s) < c - clock (host s1))
    (trigger_clocks ops s1).
Proof.
  intros Hpoll Hsteps Htick Hadv Hsc Hrc Hwas s1 Hdown.
  split; [reflexivity|]. split; [reflexivity|].
  assert (Hadv1 : callbacks_advance (sup s1)) by exact Hadv.
  assert (Hlast : getLastAttemptTime s1 = ulong (clock (host s1))) by reflexivity.
  destruct (spaced_after ops s1 sc rc (clock (host s1)) Hpoll Hsteps Htick Hadv1
              Hsc Hrc Hdown Hwas Hlast (Z.le_refl _)) as (Hall & _).
  exact Hall.
Qed.

Lemma all_error_calls_app (es1 es2 : list Event) :
  all_error_calls (es1 ++ es2) = (all_error_calls es1 + all_error_calls es2)%nat.
Proof. unfold all_error_calls. rewrite filter_app, length_app. reflexivity. Qed.

(** No invocation of the error callback, none with any given message. *)
Lemma no_error_calls (msg : string) (es : list Event) :
  all_error_calls es = 0%nat -> error_calls msg es = 0%nat.
Proof.
  unfold all_error_calls, error_calls.
  induction es as [|e es IH]; [reflexivity|].
  destruct e; cbn; auto. intros H. discriminate H.
Qed.

(** Any one call but [enable] on a stopped supervisor. *)
Lemma exec_stays_disabled (op : Op Host) (s : Sys Host) :
  not_enable op -> isReconnectEnabled s = false ->
  reconnect_calls (evs (exec op s)) = 0%nat /\
  all_error_calls (evs (exec op s)) = 0%nat /\
  isReconnectEnabled (st (exec op s)) = false.
Proof.
  intros Hop Hoff. destruct op; cbn [not_enable] in Hop; try contradiction;
    cbn [exec].
  13:{ destruct (_statusCallback (sup s)) as [sc|] eqn:Hsc;
         [destruct (_reconnectCallback (sup s)) as [rc|] eqn:Hrc|];
         try (rewrite loop_unset by auto; cbn; auto).
       apply (disabled_poll_silent s sc rc Hsc Hrc Hoff). }
  all: try destruct connected.
  all: unfold isReconnectEnabled, all_error_calls in *; call_cases s;
    try discriminate Hoff; repeat split; reflexivity.
Qed.

(** X3: once enabled is false (after exhaustion or [disable]), no
    sequence of calls that contains no [enable] sets it back to true,
    invokes the reconnect callback or invokes the error callback with
    any message at all: polls whatever the link does, setters, [reset],
    [disable], notifications and whatever the host does in between. *)
Theorem disabled_never_reconnects (s : Sys Host) (ops : list (Op Host)) :
  Forall not_enable ops ->
  isReconnectEnabled s = false ->
  reconnect_calls (evs (run ops s)) = 0%nat /\
  all_error_calls (evs (run ops s)) = 0%nat /\
  (forall msg, error_calls msg (evs (run ops s)) = 0%nat) /\
  isReconnectEnabled (st (run ops s)) = false.
Proof.
  intros Hops. revert s.
  assert (Hgen : forall s, isReconnectEnabled s = false ->
            reconnect_calls (evs (run ops s)) = 0%nat /\
            all_error_calls (evs (run ops s)) = 0%nat /\
            isReconnectEnabled (st (run ops s)) = false).
  { induction Hops as [|op ops Hop Hops IH]; intros s Hoff; [cbn; auto|].
    destruct (exec_stays_disabled op s Hop Hoff) as (Hc & He & Hoff').
    destruct (IH _ Hoff') as (Hc' & He' & Hoff'').
    rewrite run_cons_st, run_cons_evs, reconnect_calls_app, all_error_calls_app.
    rewrite Hc, Hc', He, He'. auto. }
  intros s Hoff. destruct (Hgen s Hoff) as (Hc & He & Hoff').
  repeat split; auto. intros msg. apply no_error_calls. exact He.
Qed.

(** One call from two systems that differ at most in the timeout. *)
Lemma exec_same_but_timeout (op : Op Host) (s1 s2 : Sys Host) :
  same_but_timeout s1 s2 ->
  evs (exec op s1) = evs (exec op s2) /\
  same_but_timeout (st (exec op s1)) (st (exec op s2)).
Proof.
  intros (Hsup & Hhost).
  destruct s1 as [[should was last start att mx to1 dl rcb scb lcb ecb nm] h1].
  destruct s2 as [[should2 was2 last2 start2 att2 mx2 to2 dl2 rcb2 scb2 lcb2 ecb2
                     nm2] h2].
  cbn in Hsup, Hhost. injection Hsup as <- <- <- <- <- <- <- <- <- <- <- <-.
  subst h2. unfold same_but_timeout.
  destruct op; cbn [exec].
  14:{ destruct scb as [sc|]; [|cbn; repeat split; reflexivity].
       destruct rcb as [rc|]; [|cbn; repeat split; reflexivity].
       unfold loop, onConnectionStatusChanged.
       unfold bind, self, when, if_set, ret, store, call_status, call_log,
         call_error, call_reconnect, millis.
       cbn [sup host _statusCallback _reconnectCallback].
       destruct (sc h1) as [cc h]. destruct cc, was, should; cbn;
         repeat (match goal with
                 | |- context [?a <? ?b] => destruct (a <? b) eqn:?
                 | |- context [?a <=? ?b] => destruct (a <=? b) eqn:?
                 | |- context [match ?o with Some _ => _ | None => _ end] =>
                   destruct o eqn:?
                 | |- context [if negb ?b then _ else _] => destruct b eqn:?
                 end; cbn);
         repeat split; reflexivity. }
  all: try destruct connected.
  all: unfold setMaxAttempts, setConnectionTimeout, setReconnectDelay,
    setConnectionName, setReconnectCallback, setStatusCallback, setLogCallback,
    setErrorCallback, enable, disable, reset, onConnectionAttemptStarted,
    onConnectionStatusChanged;
    unfold bind, self, when, if_set, ret, store, call_log, millis;
    cbn [sup host];
    try destruct lcb; try destruct should; try destruct was; cbn;
    repeat split; reflexivity.
Qed.

(** X11: the connection timeout is never acted on: whatever value
    [setConnectionTimeout] stores, every later sequence of calls invokes
    the same callbacks with the same results and messages, and leaves the
    same host and the same supervisor but for the stored timeout. *)
Theorem timeout_never_used (ops : list (Op Host)) (s : Sys Host) (timeoutMs : Z) :
  evs (run (SetConnectionTimeout timeoutMs :: ops) s) = evs (run ops s) /\
  same_but_timeout (st (run (SetConnectionTimeout timeoutMs :: ops) s))
    (st (run ops s)).
Proof.
  rewrite run_cons_evs, run_cons_st. cbn [exec].
  assert (Hrel : same_but_timeout (st (setConnectionTimeout timeoutMs s)) s)
    by (destruct s as [[] ?]; split; reflexivity).
  change (evs (setConnectionTimeout timeoutMs s)) with (@nil Event).
  cbn [app].
  revert Hrel. generalize (st (setConnectionTimeout timeoutMs s)) as s1.
  revert s. induction ops as [|op ops IH]; intros s s1 Hrel.
  { split; [reflexivity | exact Hrel]. }
  destruct (exec_same_but_timeout op s1 s Hrel) as (Hevs & Hrel').
  rewrite !run_cons_evs, !run_cons_st, Hevs.
  destruct (IH _ _ Hrel') as (IHe & IHs).
  rewrite IHe. split; [reflexivity | exact IHs].
Qed.

(** One call and the attempt count: it stays non-negative and grows by
    at most the invocations of the reconnect callback in that call. *)
Lemma exec_attempts_called (op : Op Host) (s : Sys Host) :
  0 <= getReconnectAttempts s ->
  0 <= getReconnectAttempts (st (exec op s))
    <= getReconnectAttempts s + Z.of_nat (reconnect_calls (evs (exec op s))).
Proof.
  intros Hpos. destruct op; cbn [exec].
  14:{ destruct (_statusCallback (sup s)) as [sc|] eqn:Hsc;
         [destruct (_reconnectCallback (sup s)) as [rc|] eqn:Hrc|];
         try (rewrite loop_unset by auto; cbn; lia).
       destruct (poll_summary s sc rc Hsc Hrc) as (_ & Hatt & Hcalls & _).
       rewrite Hatt, Hcalls.
       destruct (fst (sc (host s))), (wasConnected s), (fires s); cbn; lia. }
  all: try destruct connected.
  all: call_cases s; lia.
Qed.

(** X13: in every state reached from a fresh supervisor the attempt count
    is non-negative and at most the number of times the reconnect
    callback has been invoked: no attempt is counted that was not handed
    to the host. *)
Theorem attempts_were_made (name : string) (h : Host) (ops : list (Op Host)) :
  let r := run ops (mkSys (AutoReconnect_new name) h) in
  0 <= getReconnectAttempts (st r) <= Z.of_nat (reconnect_calls (evs r)).
Proof.
  cbv zeta.
  assert (Hgen : forall ops s, 0 <= getReconnectAttempts s ->
            0 <= getReconnectAttempts (st (run ops s))
              <= getReconnectAttempts s
                 + Z.of_nat (reconnect_calls (evs (run ops s)))).
  { clear ops. intros ops. induction ops as [|op ops IH]; intros s Hpos.
    - cbn. lia.
    - pose proof (exec_attempts_called op s Hpos) as Hstep.
      assert (Hpos' : 0 <= getReconnectAttempts (st (exec op s))) by lia.
      specialize (IH _ Hpos').
      rewrite run_cons_st, run_cons_evs, reconnect_calls_app, Nat2Z.inj_add.
      lia. }
  apply (Hgen ops (mkSys (AutoReconnect_new name) h)). cbn. lia.
Qed.

(** One call under a cap on the budgets. *)
Lemma exec_within_bound (bound : Z) (op : Op Host) (s : Sys Host) :
  match op with SetMaxAttempts m => m <= bound | _ => True end ->
  0 <= bound ->
  getReconnectAttempts s <= bound /\ getMaxReconnectAttempts s <= bound ->
  getReconnectAttempts (st (exec op s)) <= bound /\
  getMaxReconnectAttempts (st (exec op s)) <= bound.
Proof.
  intros Hop Hb (Hatt & Hmax). destruct op; cbn [exec].
  14:{ destruct (config_members _ _ (loop_config s)) as (Hm & _).
       unfold getMaxReconnectAttempts. rewrite Hm.
       fold (getMaxReconnectAttempts s). split; [|exact Hmax].
       destruct (_statusCallback (sup s)) as [sc|] eqn:Hsc;
         [destruct (_reconnectCallback (sup s)) as [rc|] eqn:Hrc|];
         try (rewrite loop_unset by auto; exact Hatt).
       destruct (poll_summary s sc rc Hsc Hrc) as (_ & Ha & _ & _ & _ & Hf & _).
       rewrite Ha.
       destruct (fst (sc (host s))); [destruct (wasConnected s); lia|].
       destruct (fires s); [|lia].
       destruct Hf as (_ & _ & Hlt & _); [reflexivity|]. lia. }
  all: try destruct connected.
  all: call_cases s; lia.
Qed.

(** X14: the increment of the attempt count never overflows [int]: from a
    fresh supervisor, as long as every [setMaxAttempts] passes at most
    [bound] (at least the default 5; [INT_MAX] for one), the attempt
    count and the budget never exceed [bound]. *)
Theorem attempts_never_overflow (bound : Z) (name : string) (h : Host)
  (ops : list (Op Host)) :
  5 <= bound ->
  budgets_within bound ops ->
  let s := st (run ops (mkSys (AutoReconnect_new name) h)) in
  getReconnectAttempts s <= bound /\ getMaxReconnectAttempts s <= bound.
Proof.
  intros Hb Hops. cbv zeta.
  assert (Hgen : forall ops s, budgets_within bound ops ->
            getReconnectAttempts s <= bound /\ getMaxReconnectAttempts s <= bound ->
            getReconnectAttempts (st (run ops s)) <= bound /\
            getMaxReconnectAttempts (st (run ops s)) <= bound).
  { clear ops Hops. intros ops. induction ops as [|op ops IH]; intros s Hops Hinv.
    - exact Hinv.
    - inversion Hops as [|? ? Hop Hops']; subst.
      rewrite run_cons_st. apply IH; [exact Hops'|].
      apply exec_within_bound; [exact Hop | lia | exact Hinv]. }
  apply Hgen; [exact Hops|]. cbn. lia.
Qed.

End MoreRuns.

Section Retrying.

Context {Host : Type} {board : Board Host}.

Local Open Scope sup_scope.

#[local] Arguments String.append : simpl never.
#[local] Arguments String_of_int : simpl never.
#[local] Arguments ulong : simpl never.
#[local] Arguments usub : simpl never.

Ltac monad_in E :=
  unfold bind, self, when, if_set, ret, store, call_status, call_log,
    call_error, call_reconnect, millis in E.

Ltac branch_in E :=
  match type of E with
  | context [?a <? ?b] => destruct (a <? b) eqn:?
  | context [?a <=? ?b] => destruct (a <=? b) eqn:?
  | context [match ?o with Some _ => _ | None => _ end] => destruct o eqn:?
  | context [if negb ?b then _ else _] => destruct b eqn:?
  | context [if ?b then _ else _] => destruct b eqn:?
  end;
  cbn in E.

(** With instant callbacks the clock does not move during a poll. *)
Lemma loop_clock_instant (s : Sys Host) sc rc :
  _statusCallback (sup s) = Some sc ->
  _reconnectCallback (sup s) = Some rc ->
  instant tick -> callbacks_instant (sup s) ->
  clock (host (st (loop s))) = clock (host s) /\
  decision_clock s = clock (host s) /\
  attempt_clock s = clock (host s).
Proof.
  intros Hsc Hrc Htick (Hs & Hr & Hl & He).
  specialize (Hs _ Hsc). specialize (Hr _ Hrc).
  generalize (Hs (host s)). revert Hl He.
  unfold decision_clock, attempt_clock.
  remember (at_decision s) as dec eqn:Edec.
  remember (loop s) as out eqn:Eout.
  destruct s as [[should was last start att mx tmo dl rcb scb lcb ecb nm] h].
  cbn [sup host _statusCallback _reconnectCallback _logCallback
       _errorCallback] in *.
  repeat match goal with H : ?x = Some _ |- _ => is_var x; subst x end.
  unfold at_decision, update_status, onConnectionStatusChanged in Edec.
  unfold loop, onConnectionStatusChanged in Eout.
  monad_in Edec; monad_in Eout.
  cbn [sup host _statusCallback _reconnectCallback] in Edec, Eout.
  destruct (sc h) as [cc h1] in Edec, Eout |- *.
  destruct cc, was, should;
    cbn in Edec; repeat branch_in Edec;
    cbn in Eout; repeat branch_in Eout;
    subst out dec; cbn; intros Hl He Hs0.
  all: repeat match goal with
       | H : forall cb, Some ?l = Some cb -> _ |- _ => specialize (H l eq_refl)
       | H : forall cb, _ = Some cb -> _ |- _ => clear H
       end.
  all: unfold instant in *.
  all: repeat split;
    repeat first [ exact Hs0
                 | rewrite Htick | rewrite Hr | rewrite Hl | rewrite He ].
Qed.

Lemma config_callbacks_instant (a b : AutoReconnect Host) :
  config a = config b -> callbacks_instant a -> callbacks_instant b.
Proof.
  intros H. apply config_members in H.
  destruct H as (_ & _ & Hr & Hs & Hl & He & _).
  unfold callbacks_instant. rewrite Hr, Hs, Hl, He. auto.
Qed.


(** One poll after the host let [period] ms pass, the link being down. *)
Lemma retry_step (s : Sys Host) sc rc (f : Host -> Host) (period : Z) :
  _statusCallback (sup s) = Some sc ->
  _reconnectCallback (sup s) = Some rc ->
  instant tick -> callbacks_instant (sup s) ->
  (forall h, fst (sc h) = false) ->
  (forall h, clock (f h) = clock h + period) ->
  _reconnectDelayMs (sup s) < period < 2 ^ ULONG_BITS -> 0 <= period ->
  wasConnected s = false ->
  (isReconnectEnabled s = true ->
   getReconnectAttempts s < getMaxReconnectAttempts s /\
   getLastAttemptTime s = ulong (clock (host s))) ->
  let r := run [HostStep f; Loop] s in
  config (sup (st r)) = config (sup s) /\
  wasConnected (st r) = false /\
  if isReconnectEnabled s
  then getReconnectAttempts (st r) = getReconnectAttempts s + 1 /\
       reconnect_calls (evs r) = 1%nat /\
       isReconnectEnabled (st r)
       = (getReconnectAttempts s + 1 <? getMaxReconnectAttempts s) /\
       getLastAttemptTime (st r) = ulong (clock (host (st r)))
  else getReconnectAttempts (st r) = getReconnectAttempts s /\
       reconnect_calls (evs r) = 0%nat /\
       isReconnectEnabled (st r) = false.
Proof.
  intros Hsc Hrc Htick Hinst Hdown Hf Hperiod Hpos Hwas Hinv r.
  set (s1 := mkSys (sup s) (f (host s))).
  assert (Hr : r = mkOut tt (st (loop s1)) (evs (loop s1))).
  { unfold r. cbn [run exec]. unfold bind, ret. cbn [st evs val app].
    fold s1. destruct (loop s1) as [[] s2 e2]. cbn. rewrite app_nil_r.
    reflexivity. }
  rewrite Hr. cbn [st evs].
  assert (Hsc1 : _statusCallback (sup s1) = Some sc) by exact Hsc.
  assert (Hrc1 : _reconnectCallback (sup s1) = Some rc) by exact Hrc.
  destruct (poll_summary s1 sc rc Hsc1 Hrc1)
    as (Hwas' & Hatt & Hcalls & Hen & _ & Hfire & _).
  destruct (loop_clock_instant s1 sc rc Hsc1 Hrc1 Htick Hinst)
    as (Hnow & Hdec & Hattc).
  destruct (at_decision_frame s1 sc Hsc1) as (Hval & _ & _ & _ & _ & Hsame & _).
  rewrite Hdown in *. specialize (Hsame Hwas Hval).
  split; [exact (loop_config s1)|]. split; [exact Hwas'|].
  change (getReconnectAttempts s1) with (getReconnectAttempts s) in *.
  change (getMaxReconnectAttempts s1) with (getMaxReconnectAttempts s) in *.
  change (isReconnectEnabled s1) with (isReconnectEnabled s) in *.
  destruct (isReconnectEnabled s) eqn:Hon.
  - destruct (Hinv eq_refl) as (Hlt & Hlast).
    assert (Hfires : fires s1 = true).
    { apply fires_iff_called. apply (fires_when_due s1 sc rc Hsc1 Hrc1).
      rewrite Hsame, Hdec.
      unfold isReconnectEnabled, getReconnectAttempts, getMaxReconnectAttempts,
        getLastAttemptTime in *. unfold s1. cbn [sup host] in *.
      rewrite Hlast, Hf.
      repeat split; auto.
      unfold usub, ulong. rewrite <- Zminus_mod.
      replace (clock (host s) + period - clock (host s)) with period by lia.
      rewrite Z.mod_small by lia. lia. }
    rewrite Hfires in *. destruct (Hfire eq_refl) as (_ & _ & _ & _ & Hlast').
    rewrite Hatt, Hcalls, Hen, Hlast', Hattc, Hnow. cbn [andb negb].
    repeat split; auto.
    rewrite Hatt. rewrite Z.ltb_antisym. reflexivity.
  - destruct (fires s1) eqn:Hfires.
    { destruct (Hfire eq_refl) as (_ & Habs & _). discriminate Habs. }
    rewrite Hatt, Hcalls, Hen. repeat split; auto. lia.
Qed.

(** X15: the supervisor does retry: polled every [period] ms, with
    [period] above the delay, while the link stays down and callbacks
    return at once, a supervisor that starts enabled with no attempt made
    makes one attempt per poll until its budget is used and none after;
    it is disabled from the poll that takes the last slot on. *)
Theorem retries_until_exhausted (k : nat) (s : Sys Host) sc rc
  (f : Host -> Host) (period : Z) :
  _statusCallback (sup s) = Some sc ->
  _reconnectCallback (sup s) = Some rc ->
  instant tick -> callbacks_instant (sup s) ->
  (forall h, fst (sc h) = false) ->
  (forall h, clock (f h) = clock h + period) ->
  _reconnectDelayMs (sup s) < period < 2 ^ ULONG_BITS -> 0 <= period ->
  wasConnected s = false ->
  isReconnectEnabled s = true ->
  getReconnectAttempts s = 0 ->
  0 < getMaxReconnectAttempts s ->
  getLastAttemptTime s = ulong (clock (host s)) ->
  let r := run (poll_every f k) s in
  getReconnectAttempts (st r) = Z.min (Z.of_nat k) (getMaxReconnectAttempts s) /\
  Z.of_nat (reconnect_calls (evs r))
  = Z.min (Z.of_nat k) (getMaxReconnectAttempts s) /\
  isReconnectEnabled (st r) = (Z.of_nat k <? getMaxReconnectAttempts s).
Proof.
  intros Hsc Hrc Htick Hinst Hdown Hf (Hdelay0 & Hbound) Hpos Hwas Hon Hzero
    Hmax Hlast.
  assert (Hgen : forall k s,
    _statusCallback (sup s) = Some sc ->
    _reconnectCallback (sup s) = Some rc ->
    callbacks_instant (sup s) ->
    _reconnectDelayMs (sup s) < period ->
    wasConnected s = false ->
    0 <= getReconnectAttempts s ->
    (if isReconnectEnabled s
     then getReconnectAttempts s < getMaxReconnectAttempts s /\
          getLastAttemptTime s = ulong (clock (host s))
     else getReconnectAttempts s = getMaxReconnectAttempts s) ->
    let r := run (poll_every f k) s in
    getReconnectAttempts (st r)
    = Z.min (getReconnectAttempts s + Z.of_nat k) (getMaxReconnectAttempts s) /\
    getReconnectAttempts s + Z.of_nat (reconnect_calls (evs r))
    = Z.min (getReconnectAttempts s + Z.of_nat k) (getMaxReconnectAttempts s) /\
    isReconnectEnabled (st r)
    = (getReconnectAttempts s + Z.of_nat k <? getMaxReconnectAttempts s)).
  { clear k s Hsc Hrc Hinst Hdelay0 Hwas Hon Hzero Hmax Hlast.
    intros k. induction k as [|k IH];
      intros s Hsc Hrc Hinst Hdelay Hwas Hnonneg Hinv; cbv zeta.
    { cbn [poll_every run ret st evs reconnect_calls filter List.length Z.of_nat].
      rewrite !Z.add_0_r.
      destruct (isReconnectEnabled s).
      - destruct Hinv as (Hlt & _). rewrite Z.min_l by lia.
        repeat split; auto. symmetry. apply Z.ltb_lt. exact Hlt.
      - rewrite Z.min_l by lia. repeat split; auto.
        symmetry. apply Z.ltb_ge. lia. }
    assert (Hinv' : isReconnectEnabled s = true ->
              getReconnectAttempts s < getMaxReconnectAttempts s /\
              getLastAttemptTime s = ulong (clock (host s))).
    { intros Hon. rewrite Hon in Hinv. exact Hinv. }
    destruct (retry_step s sc rc f period Hsc Hrc Htick Hinst Hdown Hf
                (conj Hdelay Hbound) Hpos Hwas Hinv')
      as (Hcfg & Hwas1 & Hstep).
    set (s1 := st (run [HostStep f; Loop] s)) in *.
    set (e1 := evs (run [HostStep f; Loop] s)) in *.
    assert (Hrun_st : st (run (poll_every f (S k)) s) = st (run (poll_every f k) s1)).
    { change (poll_every f (S k)) with ([HostStep f; Loop] ++ poll_every f k).
      apply run_app_st. }
    assert (Hrun_evs : evs (run (poll_every f (S k)) s)
                       = e1 ++ evs (run (poll_every f k) s1)).
    { cbn [poll_every]. unfold s1, e1.
      rewrite !run_cons_evs, !run_cons_st. cbn [run ret evs st].
      rewrite app_nil_r, app_assoc. reflexivity. }
    rewrite Hrun_st, Hrun_evs, reconnect_calls_app.
    destruct (config_members _ _ Hcfg) as (Hm & Hd & Hrc1 & Hsc1 & _).
    rewrite Hsc in Hsc1. rewrite Hrc in Hrc1.
    pose proof (config_callbacks_instant _ _ (eq_sym Hcfg) Hinst) as Hinst1.
    assert (Hmax1 : getMaxReconnectAttempts s1 = getMaxReconnectAttempts s)
      by exact Hm.
    assert (Hdelay1 : _reconnectDelayMs (sup s1) < period) by (rewrite Hd; exact Hdelay).
    rewrite Nat2Z.inj_succ, Nat2Z.inj_add.
    destruct (isReconnectEnabled s) eqn:Hon.
    - destruct Hinv as (Hlt & Hlast).
      destruct Hstep as (Hatt1 & Hcalls1 & Hon1 & Hlast1).
      assert (Hinv1 : if isReconnectEnabled s1
                then getReconnectAttempts s1 < getMaxReconnectAttempts s1 /\
                     getLastAttemptTime s1 = ulong (clock (host s1))
                else getReconnectAttempts s1 = getMaxReconnectAttempts s1).
      { rewrite Hon1, Hmax1, Hatt1.
        destruct (Z.ltb_spec (getReconnectAttempts s + 1)
                    (getMaxReconnectAttempts s)); [auto|lia]. }
      destruct (IH s1 Hsc1 Hrc1 Hinst1 Hdelay1 Hwas1 ltac:(lia) Hinv1)
        as (IHa & IHc & IHe).
      rewrite IHa, IHe, Hmax1, Hatt1, Hcalls1.
      rewrite Hmax1, Hatt1 in IHc.
      change (Z.of_nat 1) with 1.
      replace (getReconnectAttempts s + Z.succ (Z.of_nat k))
        with (getReconnectAttempts s + 1 + Z.of_nat k) by lia.
      repeat split; auto. lia.
    - destruct Hstep as (Hatt1 & Hcalls1 & Hon1).
      assert (Hinv1 : if isReconnectEnabled s1
                then getReconnectAttempts s1 < getMaxReconnectAttempts s1 /\
                     getLastAttemptTime s1 = ulong (clock (host s1))
                else getReconnectAttempts s1 = getMaxReconnectAttempts s1).
      { rewrite Hon1, Hmax1, Hatt1. exact Hinv. }
      destruct (IH s1 Hsc1 Hrc1 Hinst1 Hdelay1 Hwas1 ltac:(lia) Hinv1)
        as (IHa & IHc & IHe).
      rewrite IHa, IHe, Hmax1, Hatt1, Hcalls1.
      rewrite Hmax1, Hatt1 in IHc.
      change (Z.of_nat 0) with 0.
      rewrite !Z.min_r in * by lia.
      split; [reflexivity|]. split; [lia|].
      transitivity false; [apply Z.ltb_ge; lia | symmetry; apply Z.ltb_ge; lia]. }
  assert (Hinv : if isReconnectEnabled s
            then getReconnectAttempts s < getMaxReconnectAttempts s /\
                 getLastAttemptTime s = ulong (clock (host s))
            else getReconnectAttempts s = getMaxReconnectAttempts s).
  { rewrite Hon. split; [lia | exact Hlast]. }
  destruct (Hgen k s Hsc Hrc Hinst Hdelay0 Hwas ltac:(lia) Hinv)
    as (Ha & Hc & He).
  rewrite Hzero in *. rewrite !Z.add_0_l in *. auto.
Qed.

End Retrying.

(** ** Instances on the test bench *)

Section MoreBench.

Import TestHost MoreTests.

#[local] Existing Instance bench.

Lemma bench_tick_instant : instant tick.
Proof. intros h. reflexivity. Qed.

Lemma bench_callbacks_instant : callbacks_instant (sup configured).
Proof.
  repeat split; intros cb Hcb; vm_compute in Hcb;
    first [discriminate Hcb | injection Hcb as <-]; intros; intros h; reflexivity.
Qed.

Lemma poll_finds_link_up_witness :
  fst (always_connected (host linked)) = true /\
  evs (loop linked) = [StatusCall true] /\
  wasConnected (st (loop linked)) = true /\
  getReconnectAttempts (st (loop linked)) = 0 /\
  isReconnectEnabled (st (loop linked)) = isReconnectEnabled linked /\
  getLastAttemptTime (st (loop linked)) = getLastAttemptTime linked.
Proof.
  split; [reflexivity|].
  exact (poll_finds_link_up linked always_connected always_initiated
           eq_refl eq_refl eq_refl).
Defined.

Lemma poll_trace_witness :
  exists ok,
    evs (loop due)
    = evs (at_decision due)
      ++ (if fires due
          then if_registered (_logCallback (sup due))
                 (LogCall (reconnecting (_connectionName (sup due))
                             (getReconnectAttempts due + 1)
                             (getMaxReconnectAttempts due)))
               ++ [ReconnectCall ok]
               ++ (if ok then []
                   else if_registered (_errorCallback (sup due))
                          (ErrorCall (failed_to_start (_connectionName (sup due)))))
          else [])
      ++ (if isReconnectEnabled due && negb (fst (never_connected (host due)))
             && (getMaxReconnectAttempts due
                 <=? getReconnectAttempts (st (loop due)))
          then if_registered (_errorCallback (sup due))
                 (ErrorCall (disabled_after_max (_connectionName (sup due))))
          else []).
Proof.
  exact (poll_trace due never_connected always_initiated eq_refl eq_refl).
Defined.

Lemma poll_update_is_notification_witness :
  at_decision configured
  = mkOut false
      (st (onConnectionStatusChanged false (mkSys (sup configured) 0)))
      (StatusCall false
       :: evs (onConnectionStatusChanged false (mkSys (sup configured) 0))).
Proof.
  exact (poll_update_is_notification configured never_connected eq_refl).
Defined.

Lemma repeated_notification_is_noop_witness :
  wasConnected dropping = true /\
  onConnectionStatusChanged true dropping = mkOut tt dropping [].
Proof.
  split; [reflexivity|].
  exact (repeated_notification_is_noop dropping true eq_refl).
Defined.

Lemma link_loss_waits_witness :
  wasConnected dropping = true /\
  fst (never_connected (host dropping)) = false /\
  0 <= _reconnectDelayMs (sup dropping) /\
  fires dropping = false /\
  getReconnectAttempts (st (loop dropping)) = getReconnectAttempts dropping /\
  wasConnected (st (loop dropping)) = false /\
  getLastAttemptTime (st (loop dropping))
  = (if isReconnectEnabled dropping
     then ulong (clock (snd (never_connected (host dropping))))
     else getLastAttemptTime dropping).
Proof.
  assert (Hdelay : 0 <= _reconnectDelayMs (sup dropping))
    by (vm_compute; discriminate).
  split; [reflexivity|]. split; [reflexivity|]. split; [exact Hdelay|].
  apply (link_loss_waits dropping never_connected always_initiated
           eq_refl eq_refl eq_refl eq_refl).
  - intros h. reflexivity.
  - intros cb Hcb. vm_compute in Hcb. discriminate Hcb.
  - exact Hdelay.
Defined.

Lemma disable_stops_polling_witness :
  getReconnectAttempts (st (disable configured)) = getReconnectAttempts configured /\
  reconnect_calls (evs (run three_polls (st (disable configured)))) = 0%nat /\
  error_calls (disabled_after_max (_connectionName (sup configured)))
    (evs (run three_polls (st (disable configured)))) = 0%nat /\
  isReconnectEnabled (st (run three_polls (st (disable configured)))) = false.
Proof.
  exact (disable_stops_polling configured three_polls three_polls_polling).
Defined.

Lemma disabled_never_reconnects_witness :
  let ops := three_polls
             ++ [ Reset; SetMaxAttempts 5; SetReconnectDelay 0;
                  OnConnectionStatusChanged true;
                  OnConnectionStatusChanged false;
                  OnConnectionAttemptStarted; Disable ]
             ++ three_polls in
  Forall not_enable ops /\
  isReconnectEnabled exhausted = false /\
  reconnect_calls (evs (run ops exhausted)) = 0%nat /\
  all_error_calls (evs (run ops exhausted)) = 0%nat /\
  (forall msg, error_calls msg (evs (run ops exhausted)) = 0%nat) /\
  isReconnectEnabled (st (run ops exhausted)) = false.
Proof.
  intros ops.
  assert (Hops : Forall not_enable ops) by (repeat constructor).
  split; [exact Hops|]. split; [reflexivity|].
  exact (disabled_never_reconnects exhausted ops Hops eq_refl).
Defined.

Lemma enable_rearms_witness :
  isReconnectEnabled rested = false /\
  wasConnected rested = false /\
  0 < getMaxReconnectAttempts rested /\
  _reconnectDelayMs (sup rested)
    < usub (ulong (decision_clock (st (enable rested))))
        (getLastAttemptTime rested) /\
  isReconnectEnabled (st (enable rested)) = true /\
  fires (st (enable rested)) = true /\
  getReconnectAttempts (st (loop (st (enable rested)))) = 1.
Proof.
  assert (Hmax : 0 < getMaxReconnectAttempts rested) by reflexivity.
  assert (Hdue : _reconnectDelayMs (sup rested)
                 < usub (ulong (decision_clock (st (enable rested))))
                     (getLastAttemptTime rested)) by reflexivity.
  split; [reflexivity|]. split; [reflexivity|].
  split; [exact Hmax|]. split; [exact Hdue|].
  exact (enable_rearms rested never_connected always_initiated
           eq_refl eq_refl eq_refl Hmax eq_refl Hdue).
Defined.

Lemma reset_forgets_spacing_witness :
  wasConnected attempted = false /\
  isReconnectEnabled attempted = true /\
  0 < getMaxReconnectAttempts attempted /\
  evs (reset attempted) = [] /\
  (fires (st (reset attempted)) = true <->
   _reconnectDelayMs (sup attempted)
   < ulong (decision_clock (st (reset attempted)))).
Proof.
  assert (Hmax : 0 < getMaxReconnectAttempts attempted) by reflexivity.
  split; [reflexivity|]. split; [reflexivity|]. split; [exact Hmax|].
  exact (reset_forgets_spacing attempted never_connected always_initiated
           eq_refl eq_refl eq_refl eq_refl Hmax eq_refl).
Defined.

Lemma announced_attempt_spaces_polls_witness :
  wasConnected configured = false /\
  getReconnectAttempts (st (onConnectionAttemptStarted configured))
  = getReconnectAttempts configured /\
  evs (onConnectionAttemptStarted configured) = [] /\
  Forall (fun c => _reconnectDelayMs (sup configured)
                   < c - clock (host (st (onConnectionAttemptStarted configured))))
    (trigger_clocks three_polls (st (onConnectionAttemptStarted configured))).
Proof.
  split; [reflexivity|].
  apply (announced_attempt_spaces_polls three_polls configured
           never_connected always_initiated).
  - exact three_polls_polling.
  - exact three_polls_advance.
  - exact bench_tick_advances.
  - exact bench_callbacks_advance.
  - reflexivity.
  - reflexivity.
  - reflexivity.
  - vm_compute. intuition discriminate.
Defined.

Lemma attempts_never_overflow_witness :
  let ops := scenario ++ three_polls in
  budgets_within 32767 ops /\
  getReconnectAttempts (st (run ops fresh)) <= 32767 /\
  getMaxReconnectAttempts (st (run ops fresh)) <= 32767.
Proof.
  intros ops.
  assert (Hops : budgets_within 32767 ops)
    by (repeat constructor; vm_compute; discriminate).
  assert (Hb : 5 <= 32767) by (vm_compute; discriminate).
  split; [exact Hops|].
  exact (attempts_never_overflow 32767 default_connectionName 0 ops Hb Hops).
Defined.

Lemma retries_until_exhausted_witness :
  let r := run (poll_every pass 3) configured in
  getReconnectAttempts (st r) = Z.min 3 (getMaxReconnectAttempts configured) /\
  Z.of_nat (reconnect_calls (evs r))
  = Z.min 3 (getMaxReconnectAttempts configured) /\
  isReconnectEnabled (st r) = (3 <? getMaxReconnectAttempts configured).
Proof.
  apply (retries_until_exhausted 3 configured never_connected always_initiated
           pass 150).
  - reflexivity.
  - reflexivity.
  - exact bench_tick_instant.
  - exact bench_callbacks_instant.
  - intros h. reflexivity.
  - intros h. reflexivity.
  - split; [reflexivity | reflexivity].
  - vm_compute; discriminate.
  - reflexivity.
  - reflexivity.
  - reflexivity.
  - reflexivity.
  - reflexivity.
Defined.

End MoreBench.
